(** * s3lib: a thin client over the AWS S3 SDK

    Shallow embedding of the Go package [s3lib] (files [config.go],
    [errors.go] and [s3lib.go]) and the properties of its client contract:
    configuration validation, local argument checks, error mapping, listing,
    metadata retrieval and teardown.

    The package delegates every request to the AWS SDK.  The SDK is not part
    of the package, so a method is embedded as a program that performs SDK
    calls and is run against an arbitrary environment answering them. *)

From Stdlib Require Import ZArith List String.
From Stdlib.Strings Require Import Byte.
From stdpp Require Import base decidable option strings list gmap.
Import ListNotations.

Local Open Scope string_scope.
Local Open Scope list_scope.

(** ** Basic Go types *)

(** [time.Time] and [time.Duration] as integers (nanoseconds); the zero value
    of [time.Time] is [0]. *)
Definition Time := Z.
Definition time_Duration := Z.

(** A [[]byte]; the nil slice and the empty slice are both [[]]. *)
Definition bytes := list byte.

(** [context.Context]: only forwarded to the SDK, never inspected. *)
Inductive Context :=
| Background
| WithTimeout (parent : Context) (timeout : time_Duration)
| WithCancel (parent : Context).

(** ** config.go *)

Record Config := {
  Region : string;
  AccessKey : string;
  SecretKey : string;
  Duration : time_Duration;
  Endpoint : string;
  UseSSL : bool;
  Debug : bool
}.

(** ** errors.go and the error values of s3lib.go *)

(** An error returned by the SDK: either a value implementing
    [awserr.Error], which has a [Code()], or any other error. *)
Inductive sdk_error :=
| AwsErr (code message : string)
| PlainErr (message : string).

(** The error values the package returns: its four sentinels, an SDK error,
    or [fmt.Errorf(format, cause)] where [format] ends in the verb %w. *)
Inductive error :=
| ErrInvalidConfig
| ErrInvalidBucket
| ErrInvalidKey
| ErrFileNotFound
| Sdk (e : sdk_error)
| Errorf (format : string) (cause : error).

#[global] Instance sdk_error_eq_dec : EqDecision sdk_error.
Proof. solve_decision. Defined.

#[global] Instance error_eq_dec : EqDecision error.
Proof. solve_decision. Defined.

(** The message of each sentinel, as given to [errors.New]. *)
Definition sentinel_text (e : error) : option string :=
  match e with
  | ErrInvalidConfig => Some "invalid configuration"
  | ErrInvalidBucket => Some "invalid bucket name"
  | ErrInvalidKey => Some "invalid key"
  | ErrFileNotFound => Some "file not found"
  | _ => None
  end.

(** [errors.Unwrap]: only [fmt.Errorf] with %w wraps a cause. *)
Definition Unwrap (e : error) : option error :=
  match e with
  | Errorf _ cause => Some cause
  | _ => None
  end.

(** [errors.Is]: [target] is found somewhere on the chain of [err]. *)
Fixpoint errors_Is (err target : error) : bool :=
  if decide (err = target) then true
  else match err with
       | Errorf _ cause => errors_Is cause target
       | _ => false
       end.

(** The type assertion [err.(awserr.Error)] followed by [Code()]. *)
Definition awserr_Code (e : sdk_error) : option string :=
  match e with
  | AwsErr code _ => Some code
  | PlainErr _ => None
  end.

(** [(c *Config) Validate]. *)
Definition Validate (c : Config) : option error :=
  if decide (Region c = "") then Some ErrInvalidConfig
  else if decide (AccessKey c = "") then Some ErrInvalidConfig
  else if decide (SecretKey c = "") then Some ErrInvalidConfig
  else None.

(** ** The SDK surface used by the package *)

Module aws.

(** [credentials.NewStaticCredentials(id, secret, token)]. *)
Record Credentials := {
  AccessKeyID : string;
  SecretAccessKey : string;
  SessionToken : string
}.

(** [aws.Config]; a nil pointer field is [None]. *)
Record Config := {
  Region : option string;
  Credentials_ : Credentials;
  Endpoint : option string;
  S3ForcePathStyle : option bool
}.

(** [aws.StringValue], [aws.Int64Value], [aws.TimeValue]: the pointee, or
    the zero value for a nil pointer. *)
Definition StringValue (p : option string) : string := default "" p.
Definition Int64Value (p : option Z) : Z := default 0%Z p.
Definition TimeValue (p : option Time) : Time := default 0%Z p.

(** [aws.StringMap]: every value becomes a pointer to it. *)
Definition StringMap (m : gmap string string) : gmap string (option string) :=
  Some <$> m.

End aws.

Module session.
(** A [*session.Session] handed out by the SDK. *)
Record Session := { id : nat }.
End session.

Module s3.

(** [*s3.S3], built by [s3.New(sess)]. *)
Record S3 := { provider : session.Session }.
Definition New (sess : session.Session) : S3 := {| provider := sess |}.

Definition ErrCodeNoSuchBucket : string := "NoSuchBucket".

Record ListObjectsV2Input := {
  list_Bucket : option string;
  list_Prefix : option string
}.

(** [s3.Object], an entry of [ListObjectsV2Output.Contents]. *)
Record Object := {
  obj_Key : option string;
  obj_Size : option Z;
  obj_LastModified : option Time;
  obj_ETag : option string;
  obj_StorageClass : option string
}.

Record ListObjectsV2Output := { Contents : list Object }.

Record HeadObjectInput := {
  head_Bucket : option string;
  head_Key : option string
}.

Record HeadObjectOutput := {
  ContentLength : option Z;
  head_LastModified : option Time;
  head_ETag : option string;
  head_StorageClass : option string
}.

Record GetObjectInput := {
  get_Bucket : option string;
  get_Key : option string
}.

Record DeleteObjectInput := {
  del_Bucket : option string;
  del_Key : option string
}.

Record DeleteObjectOutput := { DeleteMarker : option bool }.

End s3.

Module s3manager.

(** [*s3manager.Uploader], built by [s3manager.NewUploader(sess)]. *)
Record Uploader := { up_provider : session.Session }.
Definition NewUploader (sess : session.Session) : Uploader :=
  {| up_provider := sess |}.

(** [*s3manager.Downloader], built by [s3manager.NewDownloader(sess)]. *)
Record Downloader := { down_provider : session.Session }.
Definition NewDownloader (sess : session.Session) : Downloader :=
  {| down_provider := sess |}.

Record UploadInput := {
  Bucket : option string;
  Key : option string;
  Body : bytes;
  ContentType : option string;
  ContentDisposition : option string;
  CacheControl : option string;
  Metadata : option (gmap string (option string));
  StorageClass : option string;
  ACL : option string
}.

Record UploadOutput := { Location : string }.

End s3manager.

(** ** s3lib.go: the types *)

(** [S3Client]; a nil pointer field is [None]. *)
Record S3Client := {
  s3Client : option s3.S3;
  session : option session.Session;
  uploader : option s3manager.Uploader;
  config : Config;
  debugMode : bool
}.

Record FileInfo := {
  Key : string;
  Size : Z;
  LastModified : Time;
  ETag : string;
  StorageClass : string
}.

(** [UploadOptions]; a nil [Metadata] map is [None]. *)
Record UploadOptions := {
  opt_ContentType : string;
  opt_ContentDisposition : string;
  opt_CacheControl : string;
  opt_Metadata : option (gmap string string);
  opt_StorageClass : string;
  opt_ACL : string
}.

(** ** Programs over the SDK *)

(** Modelled from the spec: the mode of a pre-signed URL, upload or
    download; the type is declared with the pre-signing code, which is not
    among the sources. *)
Inductive PresignMode := ModeUpload | ModeDownload.

(** The calls the package makes into the SDK.  Each carries the receiver it
    is invoked on and the arguments it is given.  The last two are the
    signing calls behind the pre-signing operations, which the spec
    describes and the sources do not contain. *)
Inductive SdkCall :=
| NewSession (cfg : aws.Config)
| ListObjectsV2PagesWithContext
    (svc : s3.S3) (ctx : Context) (input : s3.ListObjectsV2Input)
| UploadWithContext
    (u : s3manager.Uploader) (ctx : Context) (input : s3manager.UploadInput)
| HeadObjectWithContext
    (svc : s3.S3) (ctx : Context) (input : s3.HeadObjectInput)
| DownloadWithContext
    (d : s3manager.Downloader) (ctx : Context) (input : s3.GetObjectInput)
| DeleteObjectWithContext
    (svc : s3.S3) (ctx : Context) (input : s3.DeleteObjectInput)
| PresignRequest
    (svc : s3.S3) (mode : PresignMode) (bucket key : string)
    (expire : time_Duration)
| PresignPostPolicy
    (svc : s3.S3) (bucket key : string) (expire : time_Duration)
    (maxSize : Z).

(** What the SDK hands back.  A listing answers with the pages it fetched
    and the error that ended the paging, if any; a download with the bytes
    it wrote into the buffer it was given and its error, if any. *)
Definition response (c : SdkCall) : Type :=
  match c with
  | NewSession _ => sdk_error + session.Session
  | ListObjectsV2PagesWithContext _ _ _ =>
      list s3.ListObjectsV2Output * option sdk_error
  | UploadWithContext _ _ _ => sdk_error + s3manager.UploadOutput
  | HeadObjectWithContext _ _ _ => sdk_error + s3.HeadObjectOutput
  | DownloadWithContext _ _ _ => bytes * option sdk_error
  | DeleteObjectWithContext _ _ _ => sdk_error + s3.DeleteObjectOutput
  | PresignRequest _ _ _ _ _ => string
  | PresignPostPolicy _ _ _ _ _ => string * gmap string string
  end.

(** Whether a call sends a request to the service.  Building a session and
    signing are computed on the caller's machine. *)
Definition network (c : SdkCall) : bool :=
  match c with
  | NewSession _ => false
  | PresignRequest _ _ _ _ _ => false
  | PresignPostPolicy _ _ _ _ _ => false
  | _ => true
  end.

(** A program: it returns, panics (a nil pointer dereference), calls the SDK
    and continues with the answer, or prints a line with [fmt.Println]. *)
Inductive Prog (A : Type) : Type :=
| Ret (a : A)
| Panic
| Call (c : SdkCall) (k : response c -> Prog A)
| Println (line : string) (k : Prog A).

Arguments Ret {A} a.
Arguments Panic {A}.
Arguments Call {A} c k.
Arguments Println {A} line k.

Fixpoint bind {A B : Type} (p : Prog A) (f : A -> Prog B) : Prog B :=
  match p with
  | Ret a => f a
  | Panic => Panic
  | Call c k => Call c (fun r => bind (k r) f)
  | Println line k => Println line (bind k f)
  end.

(** A method with a pointer receiver [c *S3Client]: a program over the
    struct the receiver points to ([None] for a nil receiver), which it may
    read and assign to. *)
Definition Method (A : Type) : Type :=
  option S3Client -> Prog (A * option S3Client).

Definition ret {A : Type} (a : A) : Method A := fun st => Ret (a, st).

Definition bindM {A B : Type} (m : Method A) (f : A -> Method B) : Method B :=
  fun st => bind (m st) (fun '(a, st') => f a st').

Declare Scope method_scope.
Delimit Scope method_scope with method.
Notation "x <- m ;; k" := (bindM m (fun x => k))
  (at level 100, m at next level, right associativity) : method_scope.
Notation "m ;;; k" := (bindM m (fun _ => k))
  (at level 100, right associativity) : method_scope.

(** [c == nil]. *)
Definition is_nil : Method bool := fun st => Ret (bool_decide (st = None), st).

(** [c.f]: reading a field through a nil receiver panics. *)
Definition field {A : Type} (f : S3Client -> A) : Method A :=
  fun st => match st with
            | Some this => Ret (f this, st)
            | None => Panic
            end.

(** [c.f = v]. *)
Definition assign (upd : S3Client -> S3Client) : Method unit :=
  fun st => match st with
            | Some this => Ret (tt, Some (upd this))
            | None => Panic
            end.

(** The receiver of an SDK method call: the SDK dereferences it, so a nil
    pointer panics. *)
Definition deref {T : Type} (p : option T) : Method T :=
  fun st => match p with
            | Some r => Ret (r, st)
            | None => Panic
            end.

(** An SDK call and its answer. *)
Definition call (c : SdkCall) : Method (response c) :=
  fun st => Call c (fun r => Ret (r, st)).

Definition println (line : string) : Method unit :=
  fun st => Println line (Ret (tt, st)).

Local Open Scope method_scope.

(** ** s3lib.go: the operations *)

(** The [aws.Config] that [NewS3Client] builds: region and static
    credentials, and for a custom endpoint path-style addressing. *)
Definition NewS3Client_awsCfg (cfg : Config) : aws.Config :=
  let awsCfg :=
    {| aws.Region := Some (Region cfg);
       aws.Credentials_ :=
         {| aws.AccessKeyID := AccessKey cfg;
            aws.SecretAccessKey := SecretKey cfg;
            aws.SessionToken := "" |};
       aws.Endpoint := None;
       aws.S3ForcePathStyle := None |} in
  if decide (Endpoint cfg = "") then awsCfg
  else {| aws.Region := aws.Region awsCfg;
          aws.Credentials_ := aws.Credentials_ awsCfg;
          aws.Endpoint := Some (Endpoint cfg);
          aws.S3ForcePathStyle := Some true |}.

(** [NewS3Client]. *)
Definition NewS3Client (cfg : Config) : Prog (option S3Client * option error) :=
  match Validate cfg with
  | Some err => Ret (None, Some (Errorf "invalid config: %w" err))
  | None =>
      let awsCfg := NewS3Client_awsCfg cfg in
      Call (NewSession awsCfg) (fun r =>
        match r with
        | inl err =>
            Ret (None, Some (Errorf "failed to create session: %w" (Sdk err)))
        | inr sess =>
            let s3Client := s3.New sess in
            let uploader := s3manager.NewUploader sess in
            Ret (Some {| s3Client := Some s3Client;
                         session := Some sess;
                         uploader := Some uploader;
                         config := cfg;
                         debugMode := Debug cfg |}, None)
        end)
  end.

(** The SDK's paging loop: it hands each page it fetched to the callback,
    with a flag that is set on the last one, and stops as soon as the
    callback answers [false]. *)
Fixpoint each_page {S : Type}
    (fn : s3.ListObjectsV2Output -> bool -> S -> S * bool)
    (pages : list s3.ListObjectsV2Output) (s : S) : S :=
  match pages with
  | [] => s
  | page :: rest =>
      let '(s', more) := fn page (bool_decide (rest = [])) s in
      if more then each_page fn rest s' else s'
  end.

(** The record [ListFiles] appends for one listed object. *)
Definition FileInfo_of_Object (obj : s3.Object) : FileInfo :=
  {| Key := aws.StringValue (s3.obj_Key obj);
     Size := aws.Int64Value (s3.obj_Size obj);
     LastModified := aws.TimeValue (s3.obj_LastModified obj);
     ETag := aws.StringValue (s3.obj_ETag obj);
     StorageClass := aws.StringValue (s3.obj_StorageClass obj) |}.

(** The callback of [ListFiles], a closure over the variable [files]. *)
Definition ListFiles_page (page : s3.ListObjectsV2Output) (lastPage : bool)
    (files : list FileInfo) : list FileInfo * bool :=
  (fold_left (fun files obj => files ++ [FileInfo_of_Object obj])
     (s3.Contents page) files, true).

(** The request [ListFiles] builds: the bucket, and the prefix when one is
    given. *)
Definition ListFiles_input (bucket prefix : string) : s3.ListObjectsV2Input :=
  let input := {| s3.list_Bucket := Some bucket; s3.list_Prefix := None |} in
  if decide (prefix = "") then input
  else {| s3.list_Bucket := s3.list_Bucket input;
          s3.list_Prefix := Some prefix |}.

(** [(c *S3Client) ListFiles]. *)
Definition ListFiles (ctx : Context) (bucket prefix : string)
  : Method (list FileInfo * option error) :=
  if decide (bucket = "") then ret ([], Some ErrInvalidBucket)
  else
    let input := ListFiles_input bucket prefix in
    svc <- field s3Client ;;
    svc <- deref svc ;;
    r <- call (ListObjectsV2PagesWithContext svc ctx input) ;;
    let files := each_page ListFiles_page (fst r) [] in
    match snd r with
    | Some err =>
        match awserr_Code err with
        | Some code =>
            if decide (code = s3.ErrCodeNoSuchBucket)
            then ret ([], Some ErrInvalidBucket)
            else ret ([], Some (Errorf "AWS error: %w" (Sdk err)))
        | None => ret ([], Some (Errorf "failed to list objects: %w" (Sdk err)))
        end
    | None => ret (files, None)
    end.

(** [aws.String(s)] when [s] is set, else the field is left nil. *)
Definition String_if_set (s : string) : option string :=
  if decide (s = "") then None else Some s.

(** The request [UploadFile] builds: bucket, key and body, then every
    populated option when [opts] is not nil. *)
Definition UploadFile_input (bucket filename : string) (data : bytes)
    (opts : option UploadOptions) : s3manager.UploadInput :=
  match opts with
  | None =>
      {| s3manager.Bucket := Some bucket;
         s3manager.Key := Some filename;
         s3manager.Body := data;
         s3manager.ContentType := None;
         s3manager.ContentDisposition := None;
         s3manager.CacheControl := None;
         s3manager.Metadata := None;
         s3manager.StorageClass := None;
         s3manager.ACL := None |}
  | Some o =>
      {| s3manager.Bucket := Some bucket;
         s3manager.Key := Some filename;
         s3manager.Body := data;
         s3manager.ContentType := String_if_set (opt_ContentType o);
         s3manager.ContentDisposition :=
           String_if_set (opt_ContentDisposition o);
         s3manager.CacheControl := String_if_set (opt_CacheControl o);
         s3manager.Metadata := aws.StringMap <$> opt_Metadata o;
         s3manager.StorageClass := String_if_set (opt_StorageClass o);
         s3manager.ACL := String_if_set (opt_ACL o) |}
  end.

(** [(c *S3Client) UploadFile]. *)
Definition UploadFile (ctx : Context) (bucket filename : string)
    (data : bytes) (opts : option UploadOptions)
  : Method (string * option error) :=
  if decide (bucket = "") then ret ("", Some ErrInvalidBucket)
  else if decide (filename = "") then ret ("", Some ErrInvalidKey)
  else
    let input := UploadFile_input bucket filename data opts in
    u <- field uploader ;;
    u <- deref u ;;
    r <- call (UploadWithContext u ctx input) ;;
    match r with
    | inl err =>
        match awserr_Code err with
        | Some code =>
            if decide (code = s3.ErrCodeNoSuchBucket)
            then ret ("", Some ErrInvalidBucket)
            else ret ("", Some (Errorf "AWS error: %w" (Sdk err)))
        | None => ret ("", Some (Errorf "failed to upload file: %w" (Sdk err)))
        end
    | inr result => ret (s3manager.Location result, None)
    end.

(** [(c *S3Client) DownloadFile]. *)
Definition DownloadFile (ctx : Context) (bucket key : string)
  : Method (bytes * option error) :=
  if decide (bucket = "") then ret ([], Some ErrInvalidBucket)
  else if decide (key = "") then ret ([], Some ErrInvalidKey)
  else
    svc <- field s3Client ;;
    svc <- deref svc ;;
    probe <- call (HeadObjectWithContext svc ctx
                     {| s3.head_Bucket := Some bucket;
                        s3.head_Key := Some key |}) ;;
    match probe with
    | inl err =>
        match awserr_Code err with
        | Some code =>
            if decide (code = "NotFound")
            then ret ([], Some ErrFileNotFound)
            else if decide (code = s3.ErrCodeNoSuchBucket)
            then ret ([], Some ErrInvalidBucket)
            else ret ([], Some (Errorf "AWS error: %w" (Sdk err)))
        | None =>
            ret ([], Some (Errorf "failed to get object info: %w" (Sdk err)))
        end
    | inr _ =>
        sess <- field session ;;
        sess <- deref sess ;;
        let downloader := s3manager.NewDownloader sess in
        r <- call (DownloadWithContext downloader ctx
                     {| s3.get_Bucket := Some bucket;
                        s3.get_Key := Some key |}) ;;
        let buf := fst r in
        match snd r with
        | Some err =>
            ret ([], Some (Errorf "failed to download file: %w" (Sdk err)))
        | None => ret (buf, None)
        end
    end.

(** [(c *S3Client) DeleteFile]. *)
Definition DeleteFile (ctx : Context) (bucket key : string)
  : Method (option error) :=
  if decide (bucket = "") then ret (Some ErrInvalidBucket)
  else if decide (key = "") then ret (Some ErrInvalidKey)
  else
    svc <- field s3Client ;;
    svc <- deref svc ;;
    r <- call (DeleteObjectWithContext svc ctx
                 {| s3.del_Bucket := Some bucket; s3.del_Key := Some key |}) ;;
    match r with
    | inl err =>
        match awserr_Code err with
        | Some code =>
            if decide (code = s3.ErrCodeNoSuchBucket)
            then ret (Some ErrInvalidBucket)
            else ret (Some (Errorf "AWS error: %w" (Sdk err)))
        | None => ret (Some (Errorf "failed to delete file: %w" (Sdk err)))
        end
    | inr _ => ret None
    end.

(** [(c *S3Client) GetFileInfo]. *)
Definition GetFileInfo (ctx : Context) (bucket key : string)
  : Method (option FileInfo * option error) :=
  if decide (bucket = "") then ret (None, Some ErrInvalidBucket)
  else if decide (key = "") then ret (None, Some ErrInvalidKey)
  else
    svc <- field s3Client ;;
    svc <- deref svc ;;
    r <- call (HeadObjectWithContext svc ctx
                 {| s3.head_Bucket := Some bucket; s3.head_Key := Some key |}) ;;
    match r with
    | inl err =>
        match awserr_Code err with
        | Some code =>
            if decide (code = "NotFound")
            then ret (None, Some ErrFileNotFound)
            else if decide (code = s3.ErrCodeNoSuchBucket)
            then ret (None, Some ErrInvalidBucket)
            else ret (None, Some (Errorf "AWS error: %w" (Sdk err)))
        | None =>
            ret (None, Some (Errorf "failed to get file info: %w" (Sdk err)))
        end
    | inr result =>
        ret (Some {| Key := key;
                     Size := aws.Int64Value (s3.ContentLength result);
                     LastModified := aws.TimeValue (s3.head_LastModified result);
                     ETag := aws.StringValue (s3.head_ETag result);
                     StorageClass :=
                       aws.StringValue (s3.head_StorageClass result) |}, None)
    end.

(** [(c *S3Client) Close]. *)
Definition Close : Method (option error) :=
  nil <- is_nil ;;
  if nil then ret None
  else
    sess <- field session ;;
    (if sess is Some _
     then assign (fun this =>
            {| s3Client := s3Client this; session := None;
               uploader := uploader this; config := config this;
               debugMode := debugMode this |})
     else ret tt) ;;;
    svc <- field s3Client ;;
    (if svc is Some _
     then assign (fun this =>
            {| s3Client := None; session := session this;
               uploader := uploader this; config := config this;
               debugMode := debugMode this |})
     else ret tt) ;;;
    u <- field uploader ;;
    (if u is Some _
     then assign (fun this =>
            {| s3Client := s3Client this; session := session this;
               uploader := None; config := config this;
               debugMode := debugMode this |})
     else ret tt) ;;;
    debug <- field debugMode ;;
    (if debug then println "S3 client resources cleaned up" else ret tt) ;;;
    ret None.

(** ** Pre-signing *)

(** Modelled from the spec: the README documents [GeneratePresignedURL] and
    [GeneratePresignedPost], but their code is not among the sources.  The
    spec gives them a bucket, a key, a validity duration and a mode (for a
    URL) or a maximum payload size (for a POST); they produce a URL, and for
    a POST a set of form fields, by a signing operation of the SDK that is
    computed locally, and they have no failure of their own. *)
Definition GeneratePresignedURL (ctx : Context) (bucket key : string)
    (duration : time_Duration) (mode : PresignMode)
  : Method (string * option error) :=
  svc <- field s3Client ;;
  svc <- deref svc ;;
  url <- (call (PresignRequest svc mode bucket key duration)
            : Method string) ;;
  ret (url, None).

(** Modelled from the spec: see [GeneratePresignedURL]. *)
Definition GeneratePresignedPost (ctx : Context) (bucket key : string)
    (duration : time_Duration) (maxSizeBytes : Z)
  : Method (string * gmap string string * option error) :=
  svc <- field s3Client ;;
  svc <- deref svc ;;
  post <- (call (PresignPostPolicy svc bucket key duration maxSizeBytes)
             : Method (string * gmap string string)) ;;
  ret (post.1, post.2, None).

(** ** s3lib_test.go: the helpers *)

(** [os.Getenv] over the process environment: the value of the variable, or
    the empty string when it is not set. *)
Definition os_Getenv (environ : gmap string string) (key : string) : string :=
  default "" (environ !! key).

(** [getEnvOrDefault]. *)
Definition getEnvOrDefault (environ : gmap string string)
    (key defaultValue : string) : string :=
  let value := os_Getenv environ key in
  if decide (value = "") then defaultValue else value.

(** The package variable [testConfig]: five minutes are 300e9 nanoseconds;
    the fields it does not mention have their zero value. *)
Definition testConfig (environ : gmap string string) : Config :=
  {| Region := getEnvOrDefault environ "AWS_REGION" "us-west-2";
     AccessKey := getEnvOrDefault environ "AWS_ACCESS_KEY_ID" "test-key";
     SecretKey :=
       getEnvOrDefault environ "AWS_SECRET_ACCESS_KEY" "test-secret";
     Duration := (5 * 60 * 1000000000)%Z;
     Endpoint := "";
     UseSSL := false;
     Debug := true |}.

(** The package variable [testBucket]. *)
Definition testBucket (environ : gmap string string) : string :=
  getEnvOrDefault environ "TEST_BUCKET" "test-bucket".

(** ** Running a program *)

(** What a run leaves behind, in order: the SDK calls and the lines
    printed. *)
Inductive Event :=
| EvCall (c : SdkCall)
| EvPrint (line : string).

Inductive Outcome (A : Type) : Type :=
| Returned (a : A)
| Panicked.

Arguments Returned {A} a.
Arguments Panicked {A}.

(** An environment answers every SDK call from its current state [W]: the
    service, the network and the clock all live there. *)
Definition Env (W : Type) : Type := forall c : SdkCall, W -> response c * W.

Fixpoint run {W A : Type} (env : Env W) (p : Prog A) (w : W)
  : list Event * W * Outcome A :=
  match p with
  | Ret a => ([], w, Returned a)
  | Panic => ([], w, Panicked)
  | Call c k =>
      let '(r, w1) := env c w in
      let '(tr, w2, out) := run env (k r) w1 in
      (EvCall c :: tr, w2, out)
  | Println line k =>
      let '(tr, w1, out) := run env k w in
      (EvPrint line :: tr, w1, out)
  end.

(** The requests a run sent to the service. *)
Definition requests (tr : list Event) : list SdkCall :=
  omap (fun e => match e with
                 | EvCall c => if network c then Some c else None
                 | EvPrint _ => None
                 end) tr.

(** A handle as [NewS3Client] returns it in some environment. *)
Definition constructed (c : S3Client) : Prop :=
  exists (W : Type) (env : Env W) (w : W) (cfg : Config) tr w',
    run env (NewS3Client cfg) w = (tr, w', Returned (Some c, None)).

(** A handle whose three SDK references are all set. *)
Definition live (c : S3Client) : Prop :=
  is_Some (s3Client c) /\ is_Some (session c) /\ is_Some (uploader c).

(** ** Vocabulary of the statements *)

(** The handle a run leaves the receiver pointing to, when it returns. *)
Definition handle_after {W A : Type} (env : Env W) (m : Method A)
    (c : option S3Client) (w : W) : option (option S3Client) :=
  match run env (m c) w with
  | (_, _, Returned (_, c')) => Some c'
  | (_, _, Panicked) => None
  end.

(** The value a run returns to its caller, when it returns. *)
Definition result_of {W A : Type} (env : Env W) (m : Method A)
    (c : option S3Client) (w : W) : option A :=
  match run env (m c) w with
  | (_, _, Returned (a, _)) => Some a
  | (_, _, Panicked) => None
  end.

(** A run that is over before anything happened: nothing was sent to the
    SDK, nothing was printed, and the receiver is as it was. *)
Definition answers_locally {W A : Type} (env : Env W) (m : Method A)
    (c : option S3Client) (w : W) (a : A) : Prop :=
  run env (m c) w = ([], w, Returned (a, c)).

(** How [UploadFile], [ListFiles] and [DeleteFile] pass on an SDK failure
    [err] as [e]: code [NoSuchBucket] becomes [ErrInvalidBucket]; any other
    failure is wrapped, with [err] itself as the cause. *)
Definition passes_on (err : sdk_error) (e : error) : Prop :=
  (awserr_Code err = Some s3.ErrCodeNoSuchBucket -> e = ErrInvalidBucket) /\
  (awserr_Code err <> Some s3.ErrCodeNoSuchBucket ->
   Unwrap e = Some (Sdk err) /\ errors_Is e (Sdk err) = true).

(** The struct a handle points to once [Close] has run: the three SDK
    references are nil, configuration and debug flag are kept. *)
Definition closed (c : option S3Client) : option S3Client :=
  (fun this =>
     {| s3Client := None; session := None; uploader := None;
        config := config this; debugMode := debugMode this |}) <$> c.

(** What one [Close] prints. *)
Definition Close_trace (c : option S3Client) : list Event :=
  match c with
  | Some this =>
      if debugMode this then [EvPrint "S3 client resources cleaned up"] else []
  | None => []
  end.

(** [Close] called [n] times in a row on the same receiver, collecting what
    each call returns. *)
Fixpoint Close_times (n : nat) : Method (list (option error)) :=
  match n with
  | O => ret []
  | S n' => e <- Close ;; es <- Close_times n' ;; ret (e :: es)
  end.

(** The events of a run. *)
Definition trace_after {W A : Type} (env : Env W) (m : Method A)
    (c : option S3Client) (w : W) : list Event :=
  (run env (m c) w).1.1.

(** The calls of a run, in order, printed lines left out. *)
Definition calls (tr : list Event) : list SdkCall :=
  omap (fun e => match e with
                 | EvCall c => Some c
                 | EvPrint _ => None
                 end) tr.

(** The context a call was given. *)
Definition call_ctx (c : SdkCall) : option Context :=
  match c with
  | ListObjectsV2PagesWithContext _ ctx _ => Some ctx
  | UploadWithContext _ ctx _ => Some ctx
  | HeadObjectWithContext _ ctx _ => Some ctx
  | DownloadWithContext _ ctx _ => Some ctx
  | DeleteObjectWithContext _ ctx _ => Some ctx
  | _ => None
  end.

(** The bucket a request names. *)
Definition call_bucket (c : SdkCall) : option string :=
  match c with
  | ListObjectsV2PagesWithContext _ _ input => s3.list_Bucket input
  | UploadWithContext _ _ input => s3manager.Bucket input
  | HeadObjectWithContext _ _ input => s3.head_Bucket input
  | DownloadWithContext _ _ input => s3.get_Bucket input
  | DeleteObjectWithContext _ _ input => s3.del_Bucket input
  | PresignRequest _ _ bucket _ _ => Some bucket
  | PresignPostPolicy _ bucket _ _ _ => Some bucket
  | NewSession _ => None
  end.

(** The object key a request names; a listing names none. *)
Definition call_key (c : SdkCall) : option string :=
  match c with
  | UploadWithContext _ _ input => s3manager.Key input
  | HeadObjectWithContext _ _ input => s3.head_Key input
  | DownloadWithContext _ _ input => s3.get_Key input
  | DeleteObjectWithContext _ _ input => s3.del_Key input
  | PresignRequest _ _ _ key _ => Some key
  | PresignPostPolicy _ _ key _ _ => Some key
  | _ => None
  end.

(** An error made by [fmt.Errorf] around an error of the SDK. *)
Definition wraps_sdk (e : error) : Prop :=
  exists format err, e = Errorf format (Sdk err).

(** The handle [c] with other values in [config] and [debugMode]. *)
Definition with_config (cfg : Config) (debug : bool) (c : S3Client)
  : S3Client :=
  {| s3Client := s3Client c; session := session c; uploader := uploader c;
     config := cfg; debugMode := debug |}.

(** [&UploadOptions{}]: every field has its zero value. *)
Definition UploadOptions_zero : UploadOptions :=
  {| opt_ContentType := ""; opt_ContentDisposition := "";
     opt_CacheControl := ""; opt_Metadata := None;
     opt_StorageClass := ""; opt_ACL := "" |}.

(** An optional string field of a request that is nil or not empty. *)
Definition unset_or_nonempty (p : option string) : Prop := p <> Some "".

(** ** An in-memory service

    A small environment that answers the SDK calls from a table of buckets.
    It stands in for the service wherever a statement is instantiated at
    concrete inputs. *)

Module Fake.

Record Stored := {
  name : string;
  content : bytes;
  modified : Time;
  tag : string;
  class : string
}.

(** The buckets of the account, each with its objects in listing order. *)
Definition World : Type := list (string * list Stored).

Definition find_bucket (bucket : option string) (w : World)
  : option (list Stored) :=
  snd <$> List.find (fun b => bool_decide (Some (fst b) = bucket)) w.

Definition find_object (key : option string) (objs : list Stored)
  : option Stored :=
  List.find (fun o => bool_decide (Some (name o) = key)) objs.

Definition put_bucket (bucket : string) (objs : list Stored) (w : World)
  : World :=
  map (fun b => if decide (fst b = bucket) then (bucket, objs) else b) w.

Definition to_Object (o : Stored) : s3.Object :=
  {| s3.obj_Key := Some (name o);
     s3.obj_Size := Some (Z.of_nat (length (content o)));
     s3.obj_LastModified := Some (modified o);
     s3.obj_ETag := Some (tag o);
     s3.obj_StorageClass := Some (class o) |}.

Definition matches (prefix : option string) (o : Stored) : bool :=
  match prefix with
  | Some p => String.prefix p (name o)
  | None => true
  end.

(** Two objects to a page. *)
Fixpoint pages_of (objs : list s3.Object) : list s3.ListObjectsV2Output :=
  match objs with
  | [] => []
  | [a] => [ {| s3.Contents := [a] |} ]
  | a :: b :: rest => {| s3.Contents := [a; b] |} :: pages_of rest
  end.

Definition no_such_bucket : sdk_error :=
  AwsErr "NoSuchBucket" "The specified bucket does not exist".

Definition not_found : sdk_error := AwsErr "NotFound" "Not Found".

Definition head (o : Stored) : s3.HeadObjectOutput :=
  {| s3.ContentLength := Some (Z.of_nat (length (content o)));
     s3.head_LastModified := Some (modified o);
     s3.head_ETag := Some (tag o);
     s3.head_StorageClass := Some (class o) |}.

Definition env : Env World := fun c =>
  match c as c0 return World -> response c0 * World with
  | NewSession _ => fun w => (inr {| session.id := 1 |}, w)
  | ListObjectsV2PagesWithContext _ _ input => fun w =>
      match find_bucket (s3.list_Bucket input) w with
      | None => (([], Some no_such_bucket), w)
      | Some objs =>
          ((pages_of (map to_Object
                        (List.filter (matches (s3.list_Prefix input)) objs)),
            None), w)
      end
  | UploadWithContext _ _ input => fun w =>
      match find_bucket (s3manager.Bucket input) w with
      | None => (inl no_such_bucket, w)
      | Some objs =>
          let bucket := aws.StringValue (s3manager.Bucket input) in
          let key := aws.StringValue (s3manager.Key input) in
          let o := {| name := key; content := s3manager.Body input;
                      modified := 1%Z; tag := "etag";
                      class := default "STANDARD"
                                 (s3manager.StorageClass input) |} in
          let rest :=
            List.filter (fun o => negb (bool_decide (name o = key))) objs in
          (inr {| s3manager.Location := ("https://s3/" +:+ bucket +:+ "/" +:+ key) |},
           put_bucket bucket (rest ++ [o]) w)
      end
  | HeadObjectWithContext _ _ input => fun w =>
      match find_bucket (s3.head_Bucket input) w with
      | None => (inl no_such_bucket, w)
      | Some objs =>
          match find_object (s3.head_Key input) objs with
          | None => (inl not_found, w)
          | Some o => (inr (head o), w)
          end
      end
  | DownloadWithContext _ _ input => fun w =>
      match find_bucket (s3.get_Bucket input) w with
      | None => (([], Some no_such_bucket), w)
      | Some objs =>
          match find_object (s3.get_Key input) objs with
          | None => (([], Some (AwsErr "NoSuchKey" "no such key")), w)
          | Some o => ((content o, None), w)
          end
      end
  | DeleteObjectWithContext _ _ input => fun w =>
      match find_bucket (s3.del_Bucket input) w with
      | None => (inl no_such_bucket, w)
      | Some objs =>
          let bucket := aws.StringValue (s3.del_Bucket input) in
          (inr {| s3.DeleteMarker := None |},
           put_bucket bucket
             (List.filter
                (fun o => negb (bool_decide (Some (name o) = s3.del_Key input)))
                objs) w)
      end
  | PresignRequest _ mode bucket key _ => fun w =>
      ("https://s3/" +:+ bucket +:+ "/" +:+ key +:+ "?X-Amz-Signature=0", w)
  | PresignPostPolicy _ bucket key _ _ => fun w =>
      (("https://s3/" +:+ bucket, {[ "key" := key ]}), w)
  end.

(** The configuration of the package's tests. *)
Definition testConfig : Config :=
  {| Region := "us-west-2"; AccessKey := "test-key";
     SecretKey := "test-secret"; Duration := 300000000000%Z;
     Endpoint := ""; UseSSL := false; Debug := true |}.

Definition stored (key text : string) : Stored :=
  {| name := key; content := list_byte_of_string text; modified := 1%Z;
     tag := "etag"; class := "STANDARD" |}.

Definition world : World :=
  [ ("test-bucket",
     [ stored "a.txt" "alpha"; stored "test/b.txt" "beta";
       stored "test/c.txt" "gamma"; stored "z.txt" "omega" ]) ].

(** The handle [NewS3Client testConfig] returns here. *)
Definition client : S3Client :=
  {| s3Client := Some (s3.New {| session.id := 1 |});
     session := Some {| session.id := 1 |};
     uploader := Some (s3manager.NewUploader {| session.id := 1 |});
     config := testConfig;
     debugMode := true |}.

(** A service that refuses every request. *)
Definition access_denied : sdk_error := AwsErr "AccessDenied" "Access Denied".

Definition denied : Env unit := fun c =>
  match c as c0 return unit -> response c0 * unit with
  | NewSession _ => fun w => (inr {| session.id := 1 |}, w)
  | ListObjectsV2PagesWithContext _ _ _ => fun w =>
      (([], Some access_denied), w)
  | UploadWithContext _ _ _ => fun w => (inl access_denied, w)
  | HeadObjectWithContext _ _ _ => fun w => (inl access_denied, w)
  | DownloadWithContext _ _ _ => fun w => (([], Some access_denied), w)
  | DeleteObjectWithContext _ _ _ => fun w => (inl access_denied, w)
  | PresignRequest _ _ _ _ _ => fun w => ("", w)
  | PresignPostPolicy _ _ _ _ _ => fun w => (("", ∅), w)
  end.

End Fake.

(** ** A service that breaks off

    It answers a metadata request, then fails the download after writing
    part of the object. *)

Module Faulty.

Definition partial : bytes := list_byte_of_string "Hel".

Definition cut_off : sdk_error := AwsErr "NoSuchBucket" "bucket removed".

Definition env : Env unit := fun c =>
  match c as c0 return unit -> response c0 * unit with
  | NewSession _ => fun w => (inr {| session.id := 1 |}, w)
  | ListObjectsV2PagesWithContext _ _ _ => fun w => (([], Some cut_off), w)
  | UploadWithContext _ _ _ => fun w => (inl cut_off, w)
  | HeadObjectWithContext _ _ _ => fun w =>
      (inr {| s3.ContentLength := Some 13%Z; s3.head_LastModified := None;
              s3.head_ETag := None; s3.head_StorageClass := None |}, w)
  | DownloadWithContext _ _ _ => fun w => ((partial, Some cut_off), w)
  | DeleteObjectWithContext _ _ _ => fun w => (inl cut_off, w)
  | PresignRequest _ _ _ _ _ => fun w => ("", w)
  | PresignPostPolicy _ _ _ _ _ => fun w => (("", ∅), w)
  end.

End Faulty.

(** ** Reasoning about runs *)

(** Unfolding the plumbing of a method body. *)
Ltac method_unfold :=
  unfold bindM, ret, field, deref, call, assign, is_nil, println; simpl.

Lemma errors_Is_refl (e : error) : errors_Is e e = true.
Proof.
  destruct e; cbn [errors_Is]; destruct (decide _); congruence.
Qed.

Lemma errors_Is_Errorf (format : string) (cause target : error) :
  errors_Is cause target = true ->
  errors_Is (Errorf format cause) target = true.
Proof. intros H. cbn [errors_Is]. destruct (decide _); auto. Qed.

Lemma Validate_Some (cfg : Config) :
  Region cfg = "" \/ AccessKey cfg = "" \/ SecretKey cfg = "" ->
  Validate cfg = Some ErrInvalidConfig.
Proof.
  intros H. unfold Validate.
  repeat (destruct (decide _); [reflexivity |]).
  tauto.
Qed.

Lemma Validate_None (cfg : Config) :
  Validate cfg = None <->
  Region cfg <> "" /\ AccessKey cfg <> "" /\ SecretKey cfg <> "".
Proof.
  unfold Validate. split.
  - repeat (destruct (decide _); [discriminate |]). auto.
  - intros (H1 & H2 & H3). rewrite !decide_False; auto.
Qed.

(** ** Construction *)

(** C3. A configuration whose region, access key or secret key is empty is
    refused by [NewS3Client]: no handle is returned, the error wraps
    [ErrInvalidConfig] (so [errors.Is] finds it), and the refusal happens
    during construction, before the SDK is asked for a session. *)
Theorem NewS3Client_invalid_config :
  forall (W : Type) (env : Env W) (w : W) (cfg : Config),
    Region cfg = "" \/ AccessKey cfg = "" \/ SecretKey cfg = "" ->
    exists err : error,
      run env (NewS3Client cfg) w = ([], w, Returned (None, Some err)) /\
      errors_Is err ErrInvalidConfig = true /\
      Unwrap err = Some ErrInvalidConfig.
Proof.
  intros W env w cfg H.
  exists (Errorf "invalid config: %w" ErrInvalidConfig).
  unfold NewS3Client. rewrite (Validate_Some cfg H).
  repeat split; reflexivity.
Qed.

Lemma NewS3Client_invalid_config_witness :
  exists err : error,
    run Fake.env
      (NewS3Client
         {| Region := "us-west-2"; AccessKey := ""; SecretKey := "test-secret";
            Duration := 0%Z; Endpoint := ""; UseSSL := false; Debug := false |})
      Fake.world
    = ([], Fake.world, Returned (None, Some err)) /\
    errors_Is err ErrInvalidConfig = true /\
    Unwrap err = Some ErrInvalidConfig.
Proof.
  apply (NewS3Client_invalid_config Fake.World Fake.env Fake.world).
  simpl. right. left. reflexivity.
Defined.

(** A valid configuration passes: the session is requested from the SDK and
    the handle holds the client, the session and the uploader built from it. *)
Lemma NewS3Client_valid (W : Type) (env : Env W) (w w1 : W) (cfg : Config)
    (sess : session.Session) :
  Validate cfg = None ->
  env (NewSession (NewS3Client_awsCfg cfg)) w = (inr sess, w1) ->
  run env (NewS3Client cfg) w =
    ([EvCall (NewSession (NewS3Client_awsCfg cfg))], w1,
     Returned (Some {| s3Client := Some (s3.New sess);
                       session := Some sess;
                       uploader := Some (s3manager.NewUploader sess);
                       config := cfg;
                       debugMode := Debug cfg |}, None)).
Proof.
  intros HV E. unfold NewS3Client. rewrite HV. simpl. rewrite E. reflexivity.
Qed.

Lemma constructed_live (c : S3Client) : constructed c -> live c.
Proof.
  intros (W & env & w & cfg & tr & w' & H).
  unfold NewS3Client in H.
  destruct (Validate cfg); [discriminate |].
  simpl in H.
  match type of H with context [env ?c w] => destruct (env c w) as [[e | s] w1] end;
    simpl in H; inversion H; subst.
  repeat split; simpl; eauto.
Qed.

(** ** Local argument checks *)

Lemma empty_bucket_local (W : Type) (env : Env W) (w : W)
    (c : option S3Client) (ctx : Context) :
  (forall prefix,
     answers_locally env (ListFiles ctx "" prefix) c w
       ([], Some ErrInvalidBucket)) /\
  (forall key data opts,
     answers_locally env (UploadFile ctx "" key data opts) c w
       ("", Some ErrInvalidBucket)) /\
  (forall key,
     answers_locally env (DownloadFile ctx "" key) c w
       ([], Some ErrInvalidBucket)) /\
  (forall key,
     answers_locally env (DeleteFile ctx "" key) c w (Some ErrInvalidBucket)) /\
  (forall key,
     answers_locally env (GetFileInfo ctx "" key) c w
       (None, Some ErrInvalidBucket)).
Proof. repeat split; intros; reflexivity. Qed.

Lemma empty_key_local (W : Type) (env : Env W) (w : W)
    (c : option S3Client) (ctx : Context) (bucket : string) :
  bucket <> "" ->
  (forall data opts,
     answers_locally env (UploadFile ctx bucket "" data opts) c w
       ("", Some ErrInvalidKey)) /\
  answers_locally env (DownloadFile ctx bucket "") c w
    ([], Some ErrInvalidKey) /\
  answers_locally env (DeleteFile ctx bucket "") c w (Some ErrInvalidKey) /\
  answers_locally env (GetFileInfo ctx bucket "") c w
    (None, Some ErrInvalidKey).
Proof.
  intros Hb.
  unfold answers_locally, UploadFile, DownloadFile, DeleteFile, GetFileInfo.
  destruct (decide (bucket = "")) as [E | _]; [contradiction |].
  repeat split; intros; reflexivity.
Qed.

(** C2, as stated, fails where both arguments are empty: [UploadFile] with
    an empty key does not answer [ErrInvalidKey] when the bucket is empty
    too. *)
Lemma empty_key_with_empty_bucket :
  result_of Fake.env (UploadFile Background "" "" [] None)
    (Some Fake.client) Fake.world
  = Some ("", Some ErrInvalidBucket) /\
  result_of Fake.env (UploadFile Background "" "" [] None)
    (Some Fake.client) Fake.world
  <> Some ("", Some ErrInvalidKey).
Proof. split; [reflexivity | discriminate]. Qed.

(** C2 (amended). Whatever the handle and the environment: with an empty
    bucket, [ListFiles], [UploadFile], [DownloadFile], [DeleteFile] and
    [GetFileInfo] answer [ErrInvalidBucket]; with a bucket that is not empty
    and an empty key, [UploadFile], [DownloadFile], [DeleteFile] and
    [GetFileInfo] answer [ErrInvalidKey].  In both cases the answer is given
    before any SDK call. *)
Theorem empty_argument_rejected_locally :
  forall (W : Type) (env : Env W) (w : W) (c : option S3Client)
         (ctx : Context),
    ((forall prefix,
        answers_locally env (ListFiles ctx "" prefix) c w
          ([], Some ErrInvalidBucket)) /\
     (forall key data opts,
        answers_locally env (UploadFile ctx "" key data opts) c w
          ("", Some ErrInvalidBucket)) /\
     (forall key,
        answers_locally env (DownloadFile ctx "" key) c w
          ([], Some ErrInvalidBucket)) /\
     (forall key,
        answers_locally env (DeleteFile ctx "" key) c w
          (Some ErrInvalidBucket)) /\
     (forall key,
        answers_locally env (GetFileInfo ctx "" key) c w
          (None, Some ErrInvalidBucket))) /\
    (forall bucket,
       bucket <> "" ->
       (forall data opts,
          answers_locally env (UploadFile ctx bucket "" data opts) c w
            ("", Some ErrInvalidKey)) /\
       answers_locally env (DownloadFile ctx bucket "") c w
         ([], Some ErrInvalidKey) /\
       answers_locally env (DeleteFile ctx bucket "") c w
         (Some ErrInvalidKey) /\
       answers_locally env (GetFileInfo ctx bucket "") c w
         (None, Some ErrInvalidKey)).
Proof.
  intros W env w c ctx. split.
  - apply empty_bucket_local.
  - intros bucket Hb. apply empty_key_local. assumption.
Qed.

Lemma empty_argument_rejected_locally_witness :
  answers_locally Fake.env (ListFiles Background "" "test/")
    (Some Fake.client) Fake.world ([], Some ErrInvalidBucket) /\
  answers_locally Fake.env (DeleteFile Background "test-bucket" "")
    (Some Fake.client) Fake.world (Some ErrInvalidKey) /\
  answers_locally Fake.env (GetFileInfo Background "test-bucket" "")
    None Fake.world (None, Some ErrInvalidKey).
Proof.
  split; [| split].
  - apply (empty_argument_rejected_locally Fake.World Fake.env Fake.world
             (Some Fake.client) Background).
  - apply (empty_argument_rejected_locally Fake.World Fake.env Fake.world
             (Some Fake.client) Background).
    discriminate.
  - apply (empty_argument_rejected_locally Fake.World Fake.env Fake.world
             None Background).
    discriminate.
Defined.

(** C10. When bucket and key are both empty, [UploadFile], [DownloadFile],
    [DeleteFile] and [GetFileInfo] answer [ErrInvalidBucket], which is not
    [ErrInvalidKey]: the bucket is checked first. *)
Theorem empty_bucket_takes_precedence :
  forall (W : Type) (env : Env W) (w : W) (c : option S3Client)
         (ctx : Context) (data : bytes) (opts : option UploadOptions),
    answers_locally env (UploadFile ctx "" "" data opts) c w
      ("", Some ErrInvalidBucket) /\
    answers_locally env (DownloadFile ctx "" "") c w
      ([], Some ErrInvalidBucket) /\
    answers_locally env (DeleteFile ctx "" "") c w (Some ErrInvalidBucket) /\
    answers_locally env (GetFileInfo ctx "" "") c w
      (None, Some ErrInvalidBucket) /\
    ErrInvalidBucket <> ErrInvalidKey.
Proof. intros. repeat split; try reflexivity. discriminate. Qed.

(** ** Download and metadata *)

Section Probe.

Context {W : Type} (env : Env W) (w : W).
Context (c : S3Client) (svc : s3.S3) (ctx : Context) (bucket key : string).
Hypothesis bucket_set : bucket <> "".
Hypothesis key_set : key <> "".
Hypothesis client_set : s3Client c = Some svc.

Local Abbreviation probe :=
  (HeadObjectWithContext svc ctx
     {| s3.head_Bucket := Some bucket; s3.head_Key := Some key |}).

Lemma DownloadFile_probe_error (err : sdk_error) (w1 : W) :
  env probe w = (inl err, w1) ->
  exists e : error,
    run env (DownloadFile ctx bucket key (Some c)) w =
      ([EvCall probe], w1, Returned (([], Some e), Some c)) /\
    (awserr_Code err = Some "NotFound" -> e = ErrFileNotFound) /\
    (awserr_Code err = Some s3.ErrCodeNoSuchBucket -> e = ErrInvalidBucket).
Proof.
  intros E. unfold DownloadFile.
  rewrite !decide_False by assumption.
  method_unfold. rewrite client_set. simpl. rewrite E.
  destruct (awserr_Code err) as [code |]; simpl.
  - destruct (decide (code = "NotFound")) as [-> | Hnf]; simpl.
    + eexists; split; [reflexivity |]. split; [reflexivity | discriminate].
    + destruct (decide (code = s3.ErrCodeNoSuchBucket)) as [-> | Hnb]; simpl;
        (eexists; split; [reflexivity |]); split; congruence.
  - eexists; split; [reflexivity |]. split; discriminate.
Qed.

Lemma DownloadFile_probe_ok (sess : session.Session)
    (out : s3.HeadObjectOutput) (w1 w2 : W) (r : bytes * option sdk_error) :
  session c = Some sess ->
  env probe w = (inr out, w1) ->
  env (DownloadWithContext (s3manager.NewDownloader sess) ctx
         {| s3.get_Bucket := Some bucket; s3.get_Key := Some key |}) w1
    = (r, w2) ->
  run env (DownloadFile ctx bucket key (Some c)) w =
    ([EvCall probe;
      EvCall (DownloadWithContext (s3manager.NewDownloader sess) ctx
                {| s3.get_Bucket := Some bucket; s3.get_Key := Some key |})],
     w2,
     Returned (match r.2 with
               | Some err =>
                   ([], Some (Errorf "failed to download file: %w" (Sdk err)))
               | None => (r.1, None)
               end, Some c)).
Proof.
  intros Hs E1 E2. unfold DownloadFile.
  rewrite !decide_False by assumption.
  method_unfold. rewrite client_set. simpl. rewrite E1.
  simpl. rewrite Hs. simpl. rewrite E2.
  destruct r as [buf [err |]]; reflexivity.
Qed.

Lemma GetFileInfo_error (err : sdk_error) (w1 : W) :
  env probe w = (inl err, w1) ->
  exists e : error,
    run env (GetFileInfo ctx bucket key (Some c)) w =
      ([EvCall probe], w1, Returned ((None, Some e), Some c)) /\
    (awserr_Code err = Some "NotFound" -> e = ErrFileNotFound) /\
    (awserr_Code err = Some s3.ErrCodeNoSuchBucket -> e = ErrInvalidBucket).
Proof.
  intros E. unfold GetFileInfo.
  rewrite !decide_False by assumption.
  method_unfold. rewrite client_set. simpl. rewrite E.
  destruct (awserr_Code err) as [code |]; simpl.
  - destruct (decide (code = "NotFound")) as [-> | Hnf]; simpl.
    + eexists; split; [reflexivity |]. split; [reflexivity | discriminate].
    + destruct (decide (code = s3.ErrCodeNoSuchBucket)) as [-> | Hnb]; simpl;
        (eexists; split; [reflexivity |]); split; congruence.
  - eexists; split; [reflexivity |]. split; discriminate.
Qed.

Lemma GetFileInfo_ok (out : s3.HeadObjectOutput) (w1 : W) :
  env probe w = (inr out, w1) ->
  run env (GetFileInfo ctx bucket key (Some c)) w =
    ([EvCall probe], w1,
     Returned
       ((Some {| Key := key;
                 Size := aws.Int64Value (s3.ContentLength out);
                 LastModified := aws.TimeValue (s3.head_LastModified out);
                 ETag := aws.StringValue (s3.head_ETag out);
                 StorageClass := aws.StringValue (s3.head_StorageClass out) |},
         None), Some c)).
Proof.
  intros E. unfold GetFileInfo.
  rewrite !decide_False by assumption.
  method_unfold. rewrite client_set. simpl. rewrite E.
  reflexivity.
Qed.

End Probe.

(** C4. With a bucket and a key that are not empty, [DownloadFile] on a
    usable handle starts with a [HeadObject] probe.  If the probe fails, no
    transfer is attempted: code "NotFound" gives [ErrFileNotFound] and code
    [NoSuchBucket] gives [ErrInvalidBucket].  Only after a successful probe
    does it download into a buffer, and it returns all the bytes of that
    buffer. *)
Theorem DownloadFile_probe_then_transfer :
  forall (W : Type) (env : Env W) (w : W) (c : S3Client) (svc : s3.S3)
         (sess : session.Session) (ctx : Context) (bucket key : string),
    bucket <> "" ->
    key <> "" ->
    s3Client c = Some svc ->
    session c = Some sess ->
    let probe :=
      HeadObjectWithContext svc ctx
        {| s3.head_Bucket := Some bucket; s3.head_Key := Some key |} in
    let transfer :=
      DownloadWithContext (s3manager.NewDownloader sess) ctx
        {| s3.get_Bucket := Some bucket; s3.get_Key := Some key |} in
    let download := run env (DownloadFile ctx bucket key (Some c)) w in
    (exists rest, download.1.1 = EvCall probe :: rest) /\
    (forall err w1,
       env probe w = (inl err, w1) ->
       exists e,
         download = ([EvCall probe], w1, Returned (([], Some e), Some c)) /\
         (awserr_Code err = Some "NotFound" -> e = ErrFileNotFound) /\
         (awserr_Code err = Some s3.ErrCodeNoSuchBucket ->
          e = ErrInvalidBucket)) /\
    (forall out w1 buf w2,
       env probe w = (inr out, w1) ->
       env transfer w1 = ((buf, None), w2) ->
       download =
         ([EvCall probe; EvCall transfer], w2,
          Returned ((buf, None), Some c))).
Proof.
  intros W env w c svc sess ctx bucket key Hb Hk Hc Hs probe transfer download.
  split; [| split].
  - destruct (env probe w) as [[err | out] w1] eqn:E1.
    + destruct (DownloadFile_probe_error env w c svc ctx bucket key
                  Hb Hk Hc err w1 E1) as (e & Hrun & _).
      exists []. subst download. rewrite Hrun. reflexivity.
    + destruct (env transfer w1) as [r w2] eqn:E2.
      exists [EvCall transfer]. subst download.
      rewrite (DownloadFile_probe_ok env w c svc ctx bucket key
                 Hb Hk Hc sess out w1 w2 r Hs E1 E2).
      reflexivity.
  - intros err w1 E1.
    apply (DownloadFile_probe_error env w c svc ctx bucket key Hb Hk Hc err w1 E1).
  - intros out w1 buf w2 E1 E2. subst download.
    rewrite (DownloadFile_probe_ok env w c svc ctx bucket key
               Hb Hk Hc sess out w1 w2 (buf, None) Hs E1 E2).
    reflexivity.
Qed.

Lemma DownloadFile_probe_then_transfer_witness :
  run Fake.env (DownloadFile Background "test-bucket" "a.txt" (Some Fake.client))
    Fake.world
  = ([EvCall (HeadObjectWithContext (s3.New {| session.id := 1 |}) Background
                {| s3.head_Bucket := Some "test-bucket";
                   s3.head_Key := Some "a.txt" |});
      EvCall (DownloadWithContext
                (s3manager.NewDownloader {| session.id := 1 |}) Background
                {| s3.get_Bucket := Some "test-bucket";
                   s3.get_Key := Some "a.txt" |})],
     Fake.world,
     Returned ((list_byte_of_string "alpha", None), Some Fake.client)).
Proof.
  refine (proj2 (proj2
    (DownloadFile_probe_then_transfer Fake.World Fake.env Fake.world
       Fake.client (s3.New {| session.id := 1 |}) {| session.id := 1 |}
       Background "test-bucket" "a.txt" _ _ eq_refl eq_refl))
    (Fake.head (Fake.stored "a.txt" "alpha")) Fake.world
    (list_byte_of_string "alpha") Fake.world eq_refl eq_refl);
    discriminate.
Defined.

(** C9. With a bucket and a key that are not empty, [GetFileInfo] on a
    usable handle sends one [HeadObject] request.  Code "NotFound" gives
    [ErrFileNotFound] and code [NoSuchBucket] gives [ErrInvalidBucket]; on
    success size, modification time, entity tag and storage class are taken
    from the answer and the key is the argument. *)
Theorem GetFileInfo_metadata :
  forall (W : Type) (env : Env W) (w : W) (c : S3Client) (svc : s3.S3)
         (ctx : Context) (bucket key : string),
    bucket <> "" ->
    key <> "" ->
    s3Client c = Some svc ->
    let probe :=
      HeadObjectWithContext svc ctx
        {| s3.head_Bucket := Some bucket; s3.head_Key := Some key |} in
    let info := run env (GetFileInfo ctx bucket key (Some c)) w in
    (forall err w1,
       env probe w = (inl err, w1) ->
       exists e,
         info = ([EvCall probe], w1, Returned ((None, Some e), Some c)) /\
         (awserr_Code err = Some "NotFound" -> e = ErrFileNotFound) /\
         (awserr_Code err = Some s3.ErrCodeNoSuchBucket ->
          e = ErrInvalidBucket)) /\
    (forall out w1,
       env probe w = (inr out, w1) ->
       exists f,
         info = ([EvCall probe], w1, Returned ((Some f, None), Some c)) /\
         Key f = key /\
         Size f = aws.Int64Value (s3.ContentLength out) /\
         LastModified f = aws.TimeValue (s3.head_LastModified out) /\
         ETag f = aws.StringValue (s3.head_ETag out) /\
         StorageClass f = aws.StringValue (s3.head_StorageClass out)).
Proof.
  intros W env w c svc ctx bucket key Hb Hk Hc probe info. split.
  - intros err w1 E.
    apply (GetFileInfo_error env w c svc ctx bucket key Hb Hk Hc err w1 E).
  - intros out w1 E. subst info.
    rewrite (GetFileInfo_ok env w c svc ctx bucket key Hb Hk Hc out w1 E).
    eexists. split; [reflexivity |]. repeat split.
Qed.

Lemma GetFileInfo_metadata_witness :
  exists f : FileInfo,
    run Fake.env
      (GetFileInfo Background "test-bucket" "test/b.txt" (Some Fake.client))
      Fake.world
    = ([EvCall (HeadObjectWithContext (s3.New {| session.id := 1 |}) Background
                  {| s3.head_Bucket := Some "test-bucket";
                     s3.head_Key := Some "test/b.txt" |})],
       Fake.world, Returned ((Some f, None), Some Fake.client)) /\
    Key f = "test/b.txt" /\
    Size f = 4%Z /\
    LastModified f = 1%Z /\
    ETag f = "etag" /\
    StorageClass f = "STANDARD".
Proof.
  refine (proj2
    (GetFileInfo_metadata Fake.World Fake.env Fake.world Fake.client
       (s3.New {| session.id := 1 |}) Background "test-bucket" "test/b.txt"
       _ _ eq_refl)
    (Fake.head (Fake.stored "test/b.txt" "beta")) Fake.world eq_refl);
    discriminate.
Defined.

(** ** Listing *)

Lemma ListFiles_page_appends (objs : list s3.Object) (files : list FileInfo) :
  fold_left (fun files obj => files ++ [FileInfo_of_Object obj]) objs files
  = files ++ map FileInfo_of_Object objs.
Proof.
  revert files. induction objs as [| obj objs IH]; intros files; simpl.
  - symmetry. apply app_nil_r.
  - rewrite IH. rewrite <- app_assoc. reflexivity.
Qed.

(** The callback never stops the paging, so every page is consumed and the
    records pile up in page order. *)
Lemma each_page_ListFiles_page (pages : list s3.ListObjectsV2Output)
    (files : list FileInfo) :
  each_page ListFiles_page pages files
  = files ++ map FileInfo_of_Object (concat (map s3.Contents pages)).
Proof.
  revert files. induction pages as [| page pages IH]; intros files; simpl.
  - symmetry. apply app_nil_r.
  - rewrite IH, ListFiles_page_appends, map_app, app_assoc. reflexivity.
Qed.

Lemma ListFiles_input_eq (bucket prefix : string) :
  ListFiles_input bucket prefix =
    {| s3.list_Bucket := Some bucket;
       s3.list_Prefix := if decide (prefix = "") then None else Some prefix |}.
Proof. unfold ListFiles_input. destruct (decide _); reflexivity. Qed.

Lemma run_ListFiles {W : Type} (env : Env W) (w w1 : W) (c : S3Client)
    (svc : s3.S3) (ctx : Context) (bucket prefix : string)
    (pages : list s3.ListObjectsV2Output) (failure : option sdk_error) :
  bucket <> "" ->
  s3Client c = Some svc ->
  env (ListObjectsV2PagesWithContext svc ctx (ListFiles_input bucket prefix)) w
    = ((pages, failure), w1) ->
  run env (ListFiles ctx bucket prefix (Some c)) w =
    ([EvCall (ListObjectsV2PagesWithContext svc ctx
                (ListFiles_input bucket prefix))], w1,
     Returned
       (match failure with
        | Some err =>
            ([], Some match awserr_Code err with
                      | Some code =>
                          if decide (code = s3.ErrCodeNoSuchBucket)
                          then ErrInvalidBucket
                          else Errorf "AWS error: %w" (Sdk err)
                      | None => Errorf "failed to list objects: %w" (Sdk err)
                      end)
        | None =>
            (map FileInfo_of_Object (concat (map s3.Contents pages)), None)
        end, Some c)).
Proof.
  intros Hb Hc E. unfold ListFiles.
  rewrite decide_False by assumption.
  method_unfold. rewrite Hc. simpl. rewrite E. simpl.
  destruct failure as [err |]; simpl.
  - destruct (awserr_Code err) as [code |]; simpl; [| reflexivity].
    destruct (decide _); reflexivity.
  - rewrite each_page_ListFiles_page. reflexivity.
Qed.

(** C8. With a bucket that is not empty, [ListFiles] on a usable handle
    sends one paginated listing request, carrying the prefix exactly when
    one was given.  When the paging ends without error it returns one record
    for every object of every page, in page order, each with the object's
    key, size, modification time, entity tag and storage class.  So when the
    service lists only keys under the requested prefix, only such keys are
    returned. *)
Theorem ListFiles_every_page_in_order :
  forall (W : Type) (env : Env W) (w w1 : W) (c : S3Client) (svc : s3.S3)
         (ctx : Context) (bucket prefix : string)
         (pages : list s3.ListObjectsV2Output),
    bucket <> "" ->
    s3Client c = Some svc ->
    let listing :=
      ListObjectsV2PagesWithContext svc ctx
        {| s3.list_Bucket := Some bucket;
           s3.list_Prefix :=
             if decide (prefix = "") then None else Some prefix |} in
    env listing w = ((pages, None), w1) ->
    let objects := concat (map s3.Contents pages) in
    exists files : list FileInfo,
      run env (ListFiles ctx bucket prefix (Some c)) w =
        ([EvCall listing], w1, Returned ((files, None), Some c)) /\
      files =
        map (fun obj =>
               {| Key := aws.StringValue (s3.obj_Key obj);
                  Size := aws.Int64Value (s3.obj_Size obj);
                  LastModified := aws.TimeValue (s3.obj_LastModified obj);
                  ETag := aws.StringValue (s3.obj_ETag obj);
                  StorageClass := aws.StringValue (s3.obj_StorageClass obj) |})
            objects /\
      (forallb (fun obj =>
                  String.prefix prefix (aws.StringValue (s3.obj_Key obj)))
         objects = true ->
       forallb (fun f => String.prefix prefix (Key f)) files = true).
Proof.
  intros W env w w1 c svc ctx bucket prefix pages Hb Hc listing E objects.
  subst listing. rewrite <- ListFiles_input_eq in *.
  eexists. split; [| split].
  - rewrite (run_ListFiles env w w1 c svc ctx bucket prefix pages None Hb Hc E).
    reflexivity.
  - reflexivity.
  - intros H. fold objects. clearbody objects.
    induction objects as [| obj objs IH]; simpl in *; [reflexivity |].
    apply andb_prop in H as [H1 H2].
    unfold FileInfo_of_Object at 1. simpl. rewrite H1. simpl. auto.
Qed.

Lemma ListFiles_every_page_in_order_witness :
  (exists files : list FileInfo,
     run Fake.env
       (ListFiles Background "test-bucket" "test/" (Some Fake.client))
       Fake.world
     = ([EvCall (ListObjectsV2PagesWithContext (s3.New {| session.id := 1 |})
                   Background
                   {| s3.list_Bucket := Some "test-bucket";
                      s3.list_Prefix := Some "test/" |})],
        Fake.world, Returned ((files, None), Some Fake.client)) /\
     files =
       [ {| Key := "test/b.txt"; Size := 4%Z; LastModified := 1%Z;
            ETag := "etag"; StorageClass := "STANDARD" |};
         {| Key := "test/c.txt"; Size := 5%Z; LastModified := 1%Z;
            ETag := "etag"; StorageClass := "STANDARD" |} ] /\
     forallb (fun f => String.prefix "test/" (Key f)) files = true) /\
  (exists files : list FileInfo,
     run Fake.env (ListFiles Background "test-bucket" "" (Some Fake.client))
       Fake.world
     = ([EvCall (ListObjectsV2PagesWithContext (s3.New {| session.id := 1 |})
                   Background
                   {| s3.list_Bucket := Some "test-bucket";
                      s3.list_Prefix := None |})],
        Fake.world, Returned ((files, None), Some Fake.client)) /\
     map Key files = ["a.txt"; "test/b.txt"; "test/c.txt"; "z.txt"]).
Proof.
  split.
  - destruct (ListFiles_every_page_in_order Fake.World Fake.env Fake.world
                Fake.world Fake.client (s3.New {| session.id := 1 |})
                Background "test-bucket" "test/"
                [ {| s3.Contents :=
                       [ Fake.to_Object (Fake.stored "test/b.txt" "beta");
                         Fake.to_Object (Fake.stored "test/c.txt" "gamma") ] |} ])
      as (files & Hrun & Hfiles & Hprefix);
      [discriminate | reflexivity | reflexivity |].
    exists files. split; [exact Hrun |]. split; [exact Hfiles |].
    apply Hprefix. reflexivity.
  - destruct (ListFiles_every_page_in_order Fake.World Fake.env Fake.world
                Fake.world Fake.client (s3.New {| session.id := 1 |})
                Background "test-bucket" ""
                [ {| s3.Contents :=
                       [ Fake.to_Object (Fake.stored "a.txt" "alpha");
                         Fake.to_Object (Fake.stored "test/b.txt" "beta") ] |};
                  {| s3.Contents :=
                       [ Fake.to_Object (Fake.stored "test/c.txt" "gamma");
                         Fake.to_Object (Fake.stored "z.txt" "omega") ] |} ])
      as (files & Hrun & Hfiles & _);
      [discriminate | reflexivity | reflexivity |].
    exists files. split; [exact Hrun |]. rewrite Hfiles. reflexivity.
Defined.

(** ** Failures reported by the SDK *)

Lemma passes_on_switch (err : sdk_error) (format1 format2 : string) :
  passes_on err
    match awserr_Code err with
    | Some code =>
        if decide (code = s3.ErrCodeNoSuchBucket)
        then ErrInvalidBucket
        else Errorf format1 (Sdk err)
    | None => Errorf format2 (Sdk err)
    end.
Proof.
  unfold passes_on. destruct (awserr_Code err) as [code |].
  - destruct (decide (code = s3.ErrCodeNoSuchBucket)) as [-> | Hne].
    + split; [reflexivity | congruence].
    + split; [congruence |]. intros _. split; [reflexivity |].
      apply errors_Is_Errorf, errors_Is_refl.
  - split; [discriminate |]. intros _. split; [reflexivity |].
    apply errors_Is_Errorf, errors_Is_refl.
Qed.

Lemma UploadFile_failure {W : Type} (env : Env W) (w w1 : W) (c : S3Client)
    (u : s3manager.Uploader) (ctx : Context) (bucket filename : string)
    (data : bytes) (opts : option UploadOptions) (err : sdk_error) :
  bucket <> "" ->
  filename <> "" ->
  uploader c = Some u ->
  env (UploadWithContext u ctx (UploadFile_input bucket filename data opts)) w
    = (inl err, w1) ->
  exists e : error,
    run env (UploadFile ctx bucket filename data opts (Some c)) w =
      ([EvCall (UploadWithContext u ctx
                  (UploadFile_input bucket filename data opts))], w1,
       Returned (("", Some e), Some c)) /\
    passes_on err e.
Proof.
  intros Hb Hk Hu E. unfold UploadFile.
  rewrite !decide_False by assumption.
  method_unfold. rewrite Hu. simpl. rewrite E.
  eexists. split; [| apply (passes_on_switch err "AWS error: %w"
                              "failed to upload file: %w")].
  destruct (awserr_Code err) as [code |]; simpl; [| reflexivity].
  destruct (decide _); reflexivity.
Qed.

Lemma UploadFile_success {W : Type} (env : Env W) (w w1 : W) (c : S3Client)
    (u : s3manager.Uploader) (ctx : Context) (bucket filename : string)
    (data : bytes) (opts : option UploadOptions)
    (result : s3manager.UploadOutput) :
  bucket <> "" ->
  filename <> "" ->
  uploader c = Some u ->
  env (UploadWithContext u ctx (UploadFile_input bucket filename data opts)) w
    = (inr result, w1) ->
  run env (UploadFile ctx bucket filename data opts (Some c)) w =
    ([EvCall (UploadWithContext u ctx
                (UploadFile_input bucket filename data opts))], w1,
     Returned ((s3manager.Location result, None), Some c)).
Proof.
  intros Hb Hk Hu E. unfold UploadFile.
  rewrite !decide_False by assumption.
  method_unfold. rewrite Hu. simpl. rewrite E. reflexivity.
Qed.

Lemma DeleteFile_failure {W : Type} (env : Env W) (w w1 : W) (c : S3Client)
    (svc : s3.S3) (ctx : Context) (bucket key : string) (err : sdk_error) :
  bucket <> "" ->
  key <> "" ->
  s3Client c = Some svc ->
  env (DeleteObjectWithContext svc ctx
         {| s3.del_Bucket := Some bucket; s3.del_Key := Some key |}) w
    = (inl err, w1) ->
  exists e : error,
    run env (DeleteFile ctx bucket key (Some c)) w =
      ([EvCall (DeleteObjectWithContext svc ctx
                  {| s3.del_Bucket := Some bucket; s3.del_Key := Some key |})],
       w1, Returned (Some e, Some c)) /\
    passes_on err e.
Proof.
  intros Hb Hk Hc E. unfold DeleteFile.
  rewrite !decide_False by assumption.
  method_unfold. rewrite Hc. simpl. rewrite E.
  eexists. split; [| apply (passes_on_switch err "AWS error: %w"
                              "failed to delete file: %w")].
  destruct (awserr_Code err) as [code |]; simpl; [| reflexivity].
  destruct (decide _); reflexivity.
Qed.

Lemma DeleteFile_success {W : Type} (env : Env W) (w w1 : W) (c : S3Client)
    (svc : s3.S3) (ctx : Context) (bucket key : string)
    (out : s3.DeleteObjectOutput) :
  bucket <> "" ->
  key <> "" ->
  s3Client c = Some svc ->
  env (DeleteObjectWithContext svc ctx
         {| s3.del_Bucket := Some bucket; s3.del_Key := Some key |}) w
    = (inr out, w1) ->
  run env (DeleteFile ctx bucket key (Some c)) w =
    ([EvCall (DeleteObjectWithContext svc ctx
                {| s3.del_Bucket := Some bucket; s3.del_Key := Some key |})],
     w1, Returned (None, Some c)).
Proof.
  intros Hb Hk Hc E. unfold DeleteFile.
  rewrite !decide_False by assumption.
  method_unfold. rewrite Hc. simpl. rewrite E. reflexivity.
Qed.

(** C5. On a usable handle and with arguments that are not empty, a failure
    of the SDK call behind [UploadFile], [ListFiles] or [DeleteFile] always
    comes back to the caller as the error of the operation, after that one
    call and with nothing printed: [ErrInvalidBucket] for code
    [NoSuchBucket], and otherwise an error that wraps the SDK's own. *)
Theorem sdk_failure_is_returned :
  forall (W : Type) (env : Env W) (w w1 : W) (c : S3Client) (svc : s3.S3)
         (u : s3manager.Uploader) (ctx : Context)
         (bucket key prefix : string) (data : bytes)
         (opts : option UploadOptions) (err : sdk_error),
    bucket <> "" ->
    key <> "" ->
    s3Client c = Some svc ->
    uploader c = Some u ->
    let upload :=
      UploadWithContext u ctx (UploadFile_input bucket key data opts) in
    let listing :=
      ListObjectsV2PagesWithContext svc ctx (ListFiles_input bucket prefix) in
    let deletion :=
      DeleteObjectWithContext svc ctx
        {| s3.del_Bucket := Some bucket; s3.del_Key := Some key |} in
    (env upload w = (inl err, w1) ->
     exists e,
       run env (UploadFile ctx bucket key data opts (Some c)) w =
         ([EvCall upload], w1, Returned (("", Some e), Some c)) /\
       passes_on err e) /\
    (forall pages,
       env listing w = ((pages, Some err), w1) ->
       exists e,
         run env (ListFiles ctx bucket prefix (Some c)) w =
           ([EvCall listing], w1, Returned (([], Some e), Some c)) /\
         passes_on err e) /\
    (env deletion w = (inl err, w1) ->
     exists e,
       run env (DeleteFile ctx bucket key (Some c)) w =
         ([EvCall deletion], w1, Returned (Some e, Some c)) /\
       passes_on err e).
Proof.
  intros W env w w1 c svc u ctx bucket key prefix data opts err
    Hb Hk Hc Hu upload listing deletion.
  split; [| split].
  - intros E. apply UploadFile_failure; assumption.
  - intros pages E. eexists. split.
    + apply (run_ListFiles env w w1 c svc ctx bucket prefix pages (Some err)
               Hb Hc E).
    + apply (passes_on_switch err "AWS error: %w" "failed to list objects: %w").
  - intros E. apply DeleteFile_failure; assumption.
Qed.

Lemma sdk_failure_is_returned_witness :
  (exists e,
     run Fake.env
       (DeleteFile Background "nonexistent-bucket" "a.txt" (Some Fake.client))
       Fake.world
     = ([EvCall (DeleteObjectWithContext (s3.New {| session.id := 1 |})
                   Background
                   {| s3.del_Bucket := Some "nonexistent-bucket";
                      s3.del_Key := Some "a.txt" |})],
        Fake.world, Returned (Some e, Some Fake.client)) /\
     e = ErrInvalidBucket) /\
  (exists e,
     run Fake.denied
       (UploadFile Background "test-bucket" "a.txt" [] None (Some Fake.client))
       tt
     = ([EvCall (UploadWithContext
                   (s3manager.NewUploader {| session.id := 1 |}) Background
                   (UploadFile_input "test-bucket" "a.txt" [] None))],
        tt, Returned (("", Some e), Some Fake.client)) /\
     Unwrap e = Some (Sdk Fake.access_denied)).
Proof.
  split.
  - destruct (sdk_failure_is_returned Fake.World Fake.env Fake.world Fake.world
                Fake.client (s3.New {| session.id := 1 |})
                (s3manager.NewUploader {| session.id := 1 |}) Background
                "nonexistent-bucket" "a.txt" "" [] None Fake.no_such_bucket)
      as (_ & _ & Hdel); [discriminate | discriminate | reflexivity
                         | reflexivity |].
    destruct (Hdel eq_refl) as (e & Hrun & Hcode & _).
    exists e. split; [exact Hrun |]. apply Hcode. reflexivity.
  - destruct (sdk_failure_is_returned unit Fake.denied tt tt
                Fake.client (s3.New {| session.id := 1 |})
                (s3manager.NewUploader {| session.id := 1 |}) Background
                "test-bucket" "a.txt" "" [] None Fake.access_denied)
      as (Hup & _ & _); [discriminate | discriminate | reflexivity
                        | reflexivity |].
    destruct (Hup eq_refl) as (e & Hrun & _ & Hwrap).
    exists e. split; [exact Hrun |]. apply Hwrap. discriminate.
Defined.

(** ** Teardown *)

Lemma run_Close {W : Type} (env : Env W) (w : W) (c : option S3Client) :
  run env (Close c) w = (Close_trace c, w, Returned (None, closed c)).
Proof.
  destruct c as [[svc sess u cfg debug] |]; [| reflexivity].
  destruct svc, sess, u, debug; reflexivity.
Qed.

Lemma closed_idempotent (c : option S3Client) : closed (closed c) = closed c.
Proof. destruct c; reflexivity. Qed.

Lemma Close_trace_closed (c : option S3Client) :
  Close_trace (closed c) = Close_trace c.
Proof. destruct c; reflexivity. Qed.

Lemma run_bind {W A B : Type} (env : Env W) (p : Prog A) (f : A -> Prog B)
    (w w1 : W) (tr : list Event) (a : A) :
  run env p w = (tr, w1, Returned a) ->
  run env (bind p f) w =
    (tr ++ (run env (f a) w1).1.1, (run env (f a) w1).1.2,
     (run env (f a) w1).2).
Proof.
  revert w tr. induction p as [a' | | c k IH | line k IH]; intros w tr H;
    simpl in *.
  - inversion H; subst. simpl. destruct (run env (f a) w1) as [[? ?] ?].
    reflexivity.
  - discriminate.
  - destruct (env c w) as [r w2].
    destruct (run env (k r) w2) as [[tr' w3] out] eqn:E.
    inversion H; subst.
    rewrite (IH r w2 tr' E). reflexivity.
  - destruct (run env k w) as [[tr' w3] out] eqn:E.
    inversion H; subst.
    rewrite (IH w tr' E). reflexivity.
Qed.

Lemma run_Close_times {W : Type} (env : Env W) (w : W) (n : nat)
    (c : option S3Client) :
  run env (Close_times (S n) c) w =
    (concat (replicate (S n) (Close_trace c)), w,
     Returned (replicate (S n) None, closed c)).
Proof.
  revert c. induction n as [| n IH]; intros c.
  - change (Close_times 1 c)
      with (bind (Close c) (fun '(e, st) => Ret ([e], st))).
    rewrite (run_bind env _ _ w w _ _ (run_Close env w c)). simpl.
    rewrite app_nil_r. reflexivity.
  - change (Close_times (S (S n)) c)
      with (bind (Close c) (fun '(e, st) =>
              bind (Close_times (S n) st) (fun '(es, st') => Ret (e :: es, st')))).
    rewrite (run_bind env _ _ w w _ _ (run_Close env w c)).
    cbv beta iota.
    rewrite (run_bind env _ _ w w _ _ (IH (closed c))).
    rewrite closed_idempotent, Close_trace_closed. simpl.
    rewrite app_nil_r. reflexivity.
Qed.

(** C7. [Close] returns nil on every receiver, nil or not, closed or not,
    and never panics or calls the SDK; called any number of times in a row
    it returns nil each time and leaves the handle as the first call left
    it.  With debug mode on it prints one line per call; what it returns
    and the handle it leaves do not depend on the flag. *)
Theorem Close_total_idempotent :
  forall (W : Type) (env : Env W) (w : W) (c : option S3Client) (n : nat),
    run env (Close c) w = (Close_trace c, w, Returned (None, closed c)) /\
    run env (Close (closed c)) w =
      (Close_trace c, w, Returned (None, closed c)) /\
    run env (Close_times (S n) c) w =
      (concat (replicate (S n) (Close_trace c)), w,
       Returned (replicate (S n) None, closed c)) /\
    run env (Close None) w = ([], w, Returned (None, None)) /\
    requests (Close_trace c) = [] /\
    (forall svc sess u cfg,
       let handle debug :=
         Some {| s3Client := svc; session := sess; uploader := u;
                 config := cfg; debugMode := debug |} in
       result_of env Close (handle true) w = Some None /\
       result_of env Close (handle false) w = Some None /\
       (run env (Close (handle true)) w).1.1 =
         [EvPrint "S3 client resources cleaned up"] /\
       (run env (Close (handle false)) w).1.1 = []).
Proof.
  intros W env w c n. repeat split.
  - apply run_Close.
  - rewrite run_Close, closed_idempotent, Close_trace_closed. reflexivity.
  - apply run_Close_times.
  - destruct c as [[? ? ? ? []] |]; reflexivity.
  - unfold result_of. rewrite run_Close. reflexivity.
  - unfold result_of. rewrite run_Close. reflexivity.
  - rewrite run_Close. reflexivity.
  - rewrite run_Close. reflexivity.
Qed.

(** ** The handle across operations *)

Lemma Fake_client_constructed : constructed Fake.client.
Proof.
  exists Fake.World, Fake.env, Fake.world, Fake.testConfig.
  eexists. eexists. reflexivity.
Qed.

Lemma ListFiles_keeps_handle {W : Type} (env : Env W) (w : W) (c : S3Client)
    (ctx : Context) (bucket prefix : string) :
  is_Some (s3Client c) ->
  handle_after env (ListFiles ctx bucket prefix) (Some c) w = Some (Some c).
Proof.
  intros [svc Hc]. unfold handle_after.
  destruct (decide (bucket = "")) as [-> | Hb]; [reflexivity |].
  destruct (env (ListObjectsV2PagesWithContext svc ctx
                   (ListFiles_input bucket prefix)) w)
    as [[pages failure] w1] eqn:E.
  rewrite (run_ListFiles env w w1 c svc ctx bucket prefix pages failure Hb Hc E).
  reflexivity.
Qed.

Lemma UploadFile_keeps_handle {W : Type} (env : Env W) (w : W) (c : S3Client)
    (ctx : Context) (bucket filename : string) (data : bytes)
    (opts : option UploadOptions) :
  is_Some (uploader c) ->
  handle_after env (UploadFile ctx bucket filename data opts) (Some c) w
  = Some (Some c).
Proof.
  intros [u Hu]. unfold handle_after.
  destruct (decide (bucket = "")) as [-> | Hb]; [reflexivity |].
  destruct (decide (filename = "")) as [-> | Hk].
  { unfold UploadFile. rewrite decide_False by assumption. reflexivity. }
  destruct (env (UploadWithContext u ctx
                   (UploadFile_input bucket filename data opts)) w)
    as [[err | result] w1] eqn:E.
  - destruct (UploadFile_failure env w w1 c u ctx bucket filename data opts err
                Hb Hk Hu E) as (e & -> & _).
    reflexivity.
  - rewrite (UploadFile_success env w w1 c u ctx bucket filename data opts
               result Hb Hk Hu E).
    reflexivity.
Qed.

Lemma DownloadFile_keeps_handle {W : Type} (env : Env W) (w : W)
    (c : S3Client) (ctx : Context) (bucket key : string) :
  is_Some (s3Client c) ->
  is_Some (session c) ->
  handle_after env (DownloadFile ctx bucket key) (Some c) w = Some (Some c).
Proof.
  intros [svc Hc] [sess Hs]. unfold handle_after.
  destruct (decide (bucket = "")) as [-> | Hb]; [reflexivity |].
  destruct (decide (key = "")) as [-> | Hk].
  { unfold DownloadFile. rewrite decide_False by assumption. reflexivity. }
  destruct (env (HeadObjectWithContext svc ctx
                   {| s3.head_Bucket := Some bucket;
                      s3.head_Key := Some key |}) w)
    as [[err | out] w1] eqn:E1.
  - destruct (DownloadFile_probe_error env w c svc ctx bucket key Hb Hk Hc
                err w1 E1) as (e & -> & _).
    reflexivity.
  - destruct (env (DownloadWithContext (s3manager.NewDownloader sess) ctx
                     {| s3.get_Bucket := Some bucket;
                        s3.get_Key := Some key |}) w1)
      as [r w2] eqn:E2.
    rewrite (DownloadFile_probe_ok env w c svc ctx bucket key Hb Hk Hc
               sess out w1 w2 r Hs E1 E2).
    reflexivity.
Qed.

Lemma DeleteFile_keeps_handle {W : Type} (env : Env W) (w : W) (c : S3Client)
    (ctx : Context) (bucket key : string) :
  is_Some (s3Client c) ->
  handle_after env (DeleteFile ctx bucket key) (Some c) w = Some (Some c).
Proof.
  intros [svc Hc]. unfold handle_after.
  destruct (decide (bucket = "")) as [-> | Hb]; [reflexivity |].
  destruct (decide (key = "")) as [-> | Hk].
  { unfold DeleteFile. rewrite decide_False by assumption. reflexivity. }
  destruct (env (DeleteObjectWithContext svc ctx
                   {| s3.del_Bucket := Some bucket;
                      s3.del_Key := Some key |}) w)
    as [[err | out] w1] eqn:E.
  - destruct (DeleteFile_failure env w w1 c svc ctx bucket key err
                Hb Hk Hc E) as (e & -> & _).
    reflexivity.
  - rewrite (DeleteFile_success env w w1 c svc ctx bucket key out Hb Hk Hc E).
    reflexivity.
Qed.

Lemma GetFileInfo_keeps_handle {W : Type} (env : Env W) (w : W) (c : S3Client)
    (ctx : Context) (bucket key : string) :
  is_Some (s3Client c) ->
  handle_after env (GetFileInfo ctx bucket key) (Some c) w = Some (Some c).
Proof.
  intros [svc Hc]. unfold handle_after.
  destruct (decide (bucket = "")) as [-> | Hb]; [reflexivity |].
  destruct (decide (key = "")) as [-> | Hk].
  { unfold GetFileInfo. rewrite decide_False by assumption. reflexivity. }
  destruct (env (HeadObjectWithContext svc ctx
                   {| s3.head_Bucket := Some bucket;
                      s3.head_Key := Some key |}) w)
    as [[err | out] w1] eqn:E.
  - destruct (GetFileInfo_error env w c svc ctx bucket key Hb Hk Hc err w1 E)
      as (e & -> & _).
    reflexivity.
  - rewrite (GetFileInfo_ok env w c svc ctx bucket key Hb Hk Hc out w1 E).
    reflexivity.
Qed.

(** C6, as stated, fails for [Close]: on the handle that [NewS3Client]
    returns for the test configuration, [Close] leaves a handle whose
    fields differ from those it found. *)
Lemma Close_changes_the_handle :
  constructed Fake.client /\
  handle_after Fake.env Close (Some Fake.client) Fake.world
  = Some (Some {| s3Client := None; session := None; uploader := None;
                  config := Fake.testConfig; debugMode := true |}) /\
  handle_after Fake.env Close (Some Fake.client) Fake.world
  <> Some (Some Fake.client).
Proof.
  split; [apply Fake_client_constructed |].
  split; [reflexivity | discriminate].
Qed.

(** C6 (amended). On a handle returned by [NewS3Client], whatever the
    environment answers, [ListFiles], [UploadFile], [DownloadFile],
    [DeleteFile] and [GetFileInfo] return and leave all five fields of the
    handle as they were.  [Close] assigns nil to [s3Client], [session] and
    [uploader]; it leaves [config] and [debugMode] as they were. *)
Theorem only_Close_assigns_to_the_handle :
  forall (W : Type) (env : Env W) (w : W) (c : S3Client) (ctx : Context)
         (bucket key prefix : string) (data : bytes)
         (opts : option UploadOptions),
    constructed c ->
    handle_after env (ListFiles ctx bucket prefix) (Some c) w
      = Some (Some c) /\
    handle_after env (UploadFile ctx bucket key data opts) (Some c) w
      = Some (Some c) /\
    handle_after env (DownloadFile ctx bucket key) (Some c) w
      = Some (Some c) /\
    handle_after env (DeleteFile ctx bucket key) (Some c) w
      = Some (Some c) /\
    handle_after env (GetFileInfo ctx bucket key) (Some c) w
      = Some (Some c) /\
    handle_after env Close (Some c) w
      = Some (Some {| s3Client := None; session := None; uploader := None;
                      config := config c; debugMode := debugMode c |}).
Proof.
  intros W env w c ctx bucket key prefix data opts Hc.
  destruct (constructed_live c Hc) as (Hsvc & Hsess & Hu).
  repeat split.
  - apply ListFiles_keeps_handle; assumption.
  - apply UploadFile_keeps_handle; assumption.
  - apply DownloadFile_keeps_handle; assumption.
  - apply DeleteFile_keeps_handle; assumption.
  - apply GetFileInfo_keeps_handle; assumption.
  - unfold handle_after. rewrite run_Close. reflexivity.
Qed.

Lemma only_Close_assigns_to_the_handle_witness :
  handle_after Fake.env (ListFiles Background "test-bucket" "test/")
    (Some Fake.client) Fake.world = Some (Some Fake.client) /\
  handle_after Fake.env
    (UploadFile Background "test-bucket" "new.txt"
       (list_byte_of_string "Hello, World!") None)
    (Some Fake.client) Fake.world = Some (Some Fake.client) /\
  handle_after Fake.env (DownloadFile Background "test-bucket" "new.txt")
    (Some Fake.client) Fake.world = Some (Some Fake.client) /\
  handle_after Fake.env (DeleteFile Background "test-bucket" "new.txt")
    (Some Fake.client) Fake.world = Some (Some Fake.client) /\
  handle_after Fake.env (GetFileInfo Background "test-bucket" "new.txt")
    (Some Fake.client) Fake.world = Some (Some Fake.client) /\
  handle_after Fake.env Close (Some Fake.client) Fake.world
  = Some (Some {| s3Client := None; session := None; uploader := None;
                  config := Fake.testConfig; debugMode := true |}).
Proof.
  apply (only_Close_assigns_to_the_handle Fake.World Fake.env Fake.world
           Fake.client Background "test-bucket" "new.txt" "test/"
           (list_byte_of_string "Hello, World!") None).
  exists Fake.World, Fake.env, Fake.world, Fake.testConfig.
  eexists. eexists. reflexivity.
Defined.

(** ** Pre-signing *)

(** C1. The two pre-signing operations hand back what the SDK's signer
    computes, a URL for [GeneratePresignedURL] and a URL with form fields
    for [GeneratePresignedPost], with no error; the only SDK call they make
    is the local signing, so no request reaches the service. *)
Theorem presigning_is_local :
  forall (W : Type) (env : Env W) (w : W) (c : S3Client) (svc : s3.S3)
         (ctx : Context) (bucket key : string) (duration : time_Duration)
         (mode : PresignMode) (maxSizeBytes : Z),
    s3Client c = Some svc ->
    let sign := PresignRequest svc mode bucket key duration in
    let policy := PresignPostPolicy svc bucket key duration maxSizeBytes in
    run env (GeneratePresignedURL ctx bucket key duration mode (Some c)) w =
      ([EvCall sign], (env sign w).2,
       Returned (((env sign w).1, None), Some c)) /\
    requests [EvCall sign] = [] /\
    run env
      (GeneratePresignedPost ctx bucket key duration maxSizeBytes (Some c)) w =
      ([EvCall policy], (env policy w).2,
       Returned (((env policy w).1.1, (env policy w).1.2, None), Some c)) /\
    requests [EvCall policy] = [].
Proof.
  intros W env w c svc ctx bucket key duration mode maxSizeBytes Hc sign policy.
  repeat split.
  - unfold GeneratePresignedURL. method_unfold. rewrite Hc. simpl.
    fold sign. destruct (env sign w) as [url w1]. reflexivity.
  - unfold GeneratePresignedPost. method_unfold. rewrite Hc. simpl.
    fold policy. destruct (env policy w) as [[url fields] w1]. reflexivity.
Qed.

Lemma presigning_is_local_witness :
  run Fake.env
    (GeneratePresignedURL Background "test-bucket" "uploads/file.jpg"
       900000000000%Z ModeUpload (Some Fake.client)) Fake.world
  = ([EvCall (PresignRequest (s3.New {| session.id := 1 |}) ModeUpload
                "test-bucket" "uploads/file.jpg" 900000000000%Z)],
     Fake.world,
     Returned
       (("https://s3/test-bucket/uploads/file.jpg?X-Amz-Signature=0", None),
        Some Fake.client)).
Proof.
  apply (presigning_is_local Fake.World Fake.env Fake.world Fake.client
           (s3.New {| session.id := 1 |}) Background "test-bucket"
           "uploads/file.jpg" 900000000000%Z ModeUpload 10485760%Z).
  reflexivity.
Defined.

(** ** After teardown *)

(** Why the statements about requests ask for a handle whose SDK references
    are set: once [Close] has run they are nil, and an operation that gets
    past its argument checks panics on them before any request is sent. *)
Lemma request_after_Close_panics {W : Type} (env : Env W) (w : W)
    (c : S3Client) (ctx : Context) (bucket key prefix : string) (data : bytes)
    (opts : option UploadOptions) :
  bucket <> "" ->
  key <> "" ->
  run env (ListFiles ctx bucket prefix (closed (Some c))) w
    = ([], w, Panicked) /\
  run env (UploadFile ctx bucket key data opts (closed (Some c))) w
    = ([], w, Panicked) /\
  run env (DownloadFile ctx bucket key (closed (Some c))) w
    = ([], w, Panicked) /\
  run env (DeleteFile ctx bucket key (closed (Some c))) w
    = ([], w, Panicked) /\
  run env (GetFileInfo ctx bucket key (closed (Some c))) w
    = ([], w, Panicked).
Proof.
  intros Hb Hk.
  unfold ListFiles, UploadFile, DownloadFile, DeleteFile, GetFileInfo.
  rewrite !decide_False by assumption.
  repeat split; reflexivity.
Qed.

(** ** Exploring every run of an operation *)

(** Case analysis on everything a run branches on: the argument checks,
    the receiver and its fields, and each answer of the environment. *)
Ltac explore :=
  repeat (simpl in *;
          match goal with
          | |- context [match ?x with _ => _ end] =>
              lazymatch x with
              | context [run] => fail
              | _ => destruct x eqn:?
              end
          end);
  simpl in *.

Ltac unfold_operations :=
  unfold ListFiles, UploadFile, DownloadFile, DeleteFile, GetFileInfo;
  unfold bindM, ret, field, deref, call.

(** ** Construction, beyond validation *)

(** X1. [NewS3Client] always returns, either a handle or an error and never
    both or neither; it sends nothing to the service, and the only SDK call
    it can make is the one [NewSession]. *)
Theorem NewS3Client_handle_or_error :
  forall (W : Type) (env : Env W) (w : W) (cfg : Config),
    exists tr w1 client err,
      run env (NewS3Client cfg) w = (tr, w1, Returned (client, err)) /\
      (client = None <-> err <> None) /\
      requests tr = [] /\
      (tr = [] \/ tr = [EvCall (NewSession (NewS3Client_awsCfg cfg))]).
Proof.
  intros W env w cfg. unfold NewS3Client.
  destruct (Validate cfg) as [e |].
  - do 4 eexists. split; [reflexivity |]. split; [| auto].
    split; [discriminate | reflexivity].
  - simpl.
    destruct (env (NewSession (NewS3Client_awsCfg cfg)) w) as [[e | sess] w1].
    + do 4 eexists. split; [reflexivity |]. split; [| auto].
      split; [discriminate | reflexivity].
    + do 4 eexists. split; [reflexivity |]. split; [| auto].
      split; [discriminate | intros H; exfalso; apply H; reflexivity].
Qed.

(** X2. The error of [NewS3Client] matches [ErrInvalidConfig] under
    [errors.Is] exactly when the region, the access key or the secret key
    is empty; a failure to build the session does not match it.  The error
    is never the sentinel itself, so comparing it with [==] does not
    recognise it. *)
Theorem NewS3Client_config_error :
  forall (W : Type) (env : Env W) (w : W) (cfg : Config) (tr : list Event)
         (w1 : W) (client : option S3Client) (e : error),
    run env (NewS3Client cfg) w = (tr, w1, Returned (client, Some e)) ->
    (errors_Is e ErrInvalidConfig = true <->
     Region cfg = "" \/ AccessKey cfg = "" \/ SecretKey cfg = "") /\
    e <> ErrInvalidConfig.
Proof.
  intros W env w cfg tr w1 client e. unfold NewS3Client.
  destruct (Validate cfg) as [e' |] eqn:HV.
  - intros H. inversion H; subst; clear H.
    assert (Hempty : Region cfg = "" \/ AccessKey cfg = "" \/ SecretKey cfg = "").
    { destruct (decide (Region cfg = "")); [tauto |].
      destruct (decide (AccessKey cfg = "")); [tauto |].
      destruct (decide (SecretKey cfg = "")); [tauto |].
      assert (Validate cfg = None) by (apply Validate_None; auto).
      congruence. }
    rewrite (Validate_Some cfg Hempty) in HV. inversion HV; subst.
    split; [| discriminate]. split; [intros _; exact Hempty | reflexivity].
  - simpl.
    destruct (env (NewSession (NewS3Client_awsCfg cfg)) w) as [[err | sess] w2];
      intros H; inversion H; subst; clear H.
    split; [| discriminate].
    apply Validate_None in HV. split; [discriminate | tauto].
Qed.

Lemma NewS3Client_config_error_witness :
  (errors_Is (Errorf "invalid config: %w" ErrInvalidConfig) ErrInvalidConfig
   = true <->
   "" = "" \/ "test-key" = "" \/ "test-secret" = "") /\
  Errorf "invalid config: %w" ErrInvalidConfig <> ErrInvalidConfig.
Proof.
  apply (NewS3Client_config_error Fake.World Fake.env Fake.world
           {| Region := ""; AccessKey := "test-key";
              SecretKey := "test-secret"; Duration := 0%Z; Endpoint := "";
              UseSSL := false; Debug := false |}
           [] Fake.world None).
  reflexivity.
Defined.

(** X3. With a valid configuration the one SDK call of [NewS3Client] asks
    for a session with the region and the static credentials of the
    configuration and an empty session token.  A custom endpoint is passed
    on together with path-style addressing; without one neither is set.
    [Duration], [UseSSL] and [Debug] have no part in the call. *)
Theorem NewS3Client_session_request :
  forall (W : Type) (env : Env W) (w : W) (cfg : Config),
    Validate cfg = None ->
    exists awsCfg : aws.Config,
      (run env (NewS3Client cfg) w).1.1 = [EvCall (NewSession awsCfg)] /\
      aws.Region awsCfg = Some (Region cfg) /\
      aws.Credentials_ awsCfg =
        {| aws.AccessKeyID := AccessKey cfg;
           aws.SecretAccessKey := SecretKey cfg;
           aws.SessionToken := "" |} /\
      (Endpoint cfg = "" ->
       aws.Endpoint awsCfg = None /\ aws.S3ForcePathStyle awsCfg = None) /\
      (Endpoint cfg <> "" ->
       aws.Endpoint awsCfg = Some (Endpoint cfg) /\
       aws.S3ForcePathStyle awsCfg = Some true) /\
      (forall duration useSSL debug,
         (run env
            (NewS3Client
               {| Region := Region cfg; AccessKey := AccessKey cfg;
                  SecretKey := SecretKey cfg; Duration := duration;
                  Endpoint := Endpoint cfg; UseSSL := useSSL;
                  Debug := debug |}) w).1.1
         = [EvCall (NewSession awsCfg)]).
Proof.
  intros W env w cfg HV. exists (NewS3Client_awsCfg cfg).
  assert (Hrun : forall cfg', Validate cfg' = None ->
            NewS3Client_awsCfg cfg' = NewS3Client_awsCfg cfg ->
            (run env (NewS3Client cfg') w).1.1
            = [EvCall (NewSession (NewS3Client_awsCfg cfg))]).
  { intros cfg' HV' Heq. unfold NewS3Client. rewrite HV'. simpl. rewrite Heq.
    destruct (env (NewSession (NewS3Client_awsCfg cfg)) w) as [[e | sess] w1];
      reflexivity. }
  split; [apply Hrun; [assumption | reflexivity] |].
  split; [unfold NewS3Client_awsCfg; destruct (decide _); reflexivity |].
  split; [unfold NewS3Client_awsCfg; destruct (decide _); reflexivity |].
  split.
  { intros E. unfold NewS3Client_awsCfg. rewrite decide_True by assumption.
    split; reflexivity. }
  split.
  { intros E. unfold NewS3Client_awsCfg. rewrite decide_False by assumption.
    split; reflexivity. }
  intros duration useSSL debug. apply Hrun.
  - apply Validate_None. simpl. apply Validate_None. assumption.
  - reflexivity.
Qed.

Lemma NewS3Client_session_request_witness :
  exists awsCfg : aws.Config,
    (run Fake.env
       (NewS3Client
          {| Region := "us-west-2"; AccessKey := "test-key";
             SecretKey := "test-secret"; Duration := 0%Z;
             Endpoint := "http://localhost:4566"; UseSSL := false;
             Debug := false |}) Fake.world).1.1
    = [EvCall (NewSession awsCfg)] /\
    aws.Endpoint awsCfg = Some "http://localhost:4566" /\
    aws.S3ForcePathStyle awsCfg = Some true.
Proof.
  destruct (NewS3Client_session_request Fake.World Fake.env Fake.world
              {| Region := "us-west-2"; AccessKey := "test-key";
                 SecretKey := "test-secret"; Duration := 0%Z;
                 Endpoint := "http://localhost:4566"; UseSSL := false;
                 Debug := false |} eq_refl)
    as (awsCfg & Htr & _ & _ & _ & Hend & _).
  exists awsCfg. split; [exact Htr |]. apply Hend. discriminate.
Defined.

(** X4. Every handle [NewS3Client] returns holds a client and an uploader
    built from the one session it also holds, a configuration whose region,
    access key and secret key are not empty, and the debug flag of that
    configuration. *)
Theorem constructed_handle_invariant :
  forall (c : S3Client),
    constructed c ->
    exists sess : session.Session,
      s3Client c = Some (s3.New sess) /\
      session c = Some sess /\
      uploader c = Some (s3manager.NewUploader sess) /\
      Region (config c) <> "" /\
      AccessKey (config c) <> "" /\
      SecretKey (config c) <> "" /\
      debugMode c = Debug (config c).
Proof.
  intros c (W & env & w & cfg & tr & w' & H).
  unfold NewS3Client in H.
  destruct (Validate cfg) eqn:HV; [discriminate |].
  apply Validate_None in HV. destruct HV as (H1 & H2 & H3).
  simpl in H.
  destruct (env (NewSession (NewS3Client_awsCfg cfg)) w) as [[e | sess] w1];
    simpl in H; inversion H; subst.
  exists sess. simpl. repeat split; assumption.
Qed.

Lemma constructed_handle_invariant_witness :
  exists sess : session.Session,
    s3Client Fake.client = Some (s3.New sess) /\
    session Fake.client = Some sess /\
    uploader Fake.client = Some (s3manager.NewUploader sess) /\
    Region (config Fake.client) <> "" /\
    AccessKey (config Fake.client) <> "" /\
    SecretKey (config Fake.client) <> "" /\
    debugMode Fake.client = Debug (config Fake.client).
Proof.
  apply (constructed_handle_invariant Fake.client).
  exists Fake.World, Fake.env, Fake.world, Fake.testConfig.
  eexists. eexists. reflexivity.
Defined.

(** ** What every run of a request operation has in common *)

(** X5. The five request operations never read [config] or [debugMode]:
    with any other values in these two fields they make the same calls and
    return the same.  In particular the configured [Duration] puts no
    deadline on a request. *)
Theorem config_is_never_read :
  forall (W : Type) (env : Env W) (w : W) (c : S3Client) (cfg : Config)
         (debug : bool) (ctx : Context) (bucket key prefix : string)
         (data : bytes) (opts : option UploadOptions),
    let same := fun (A : Type) (m : Method A) =>
      trace_after env m (Some (with_config cfg debug c)) w
        = trace_after env m (Some c) w /\
      result_of env m (Some (with_config cfg debug c)) w
        = result_of env m (Some c) w in
    same _ (ListFiles ctx bucket prefix) /\
    same _ (UploadFile ctx bucket key data opts) /\
    same _ (DownloadFile ctx bucket key) /\
    same _ (DeleteFile ctx bucket key) /\
    same _ (GetFileInfo ctx bucket key).
Proof.
  intros W env w [svc sess u cfg0 debug0] cfg debug ctx bucket key prefix
    data opts same.
  subst same. unfold trace_after, result_of, with_config.
  unfold_operations.
  repeat split; explore; reflexivity.
Qed.

(** X6. Whatever the handle and the environment, an operation that returns
    an error returns the zero value beside it: no records, an empty
    location, no bytes, a nil [*FileInfo].  [GetFileInfo] returns a record
    exactly when it returns no error. *)
Theorem error_comes_with_zero_value :
  forall (W : Type) (env : Env W) (w : W) (c : option S3Client)
         (ctx : Context) (bucket key prefix : string) (data : bytes)
         (opts : option UploadOptions),
    (forall files e,
       result_of env (ListFiles ctx bucket prefix) c w = Some (files, Some e) ->
       files = []) /\
    (forall location e,
       result_of env (UploadFile ctx bucket key data opts) c w
         = Some (location, Some e) ->
       location = "") /\
    (forall buf e,
       result_of env (DownloadFile ctx bucket key) c w = Some (buf, Some e) ->
       buf = []) /\
    (forall info err,
       result_of env (GetFileInfo ctx bucket key) c w = Some (info, err) ->
       (info = None <-> err <> None)).
Proof.
  intros W env w c ctx bucket key prefix data opts.
  unfold result_of. unfold_operations.
  repeat split; intros; try revert H; try revert H0; explore; intros;
    simplify_eq; eauto; try discriminate; try congruence.
Qed.

Lemma error_comes_with_zero_value_witness :
  @nil Byte.byte = [] /\ (@None FileInfo = None <-> Some ErrFileNotFound <> None).
Proof.
  destruct (error_comes_with_zero_value Fake.World Fake.env Fake.world
              (Some Fake.client) Background "test-bucket" "missing.txt" ""
              [] None) as (_ & _ & Hdown & Hinfo).
  split.
  - apply (Hdown [] ErrFileNotFound). reflexivity.
  - apply (Hinfo None (Some ErrFileNotFound)). reflexivity.
Defined.

(** X7. No retries and no logging: whatever the handle and the environment,
    [ListFiles], [UploadFile], [DeleteFile] and [GetFileInfo] leave at most
    one event and [DownloadFile] at most two, and every event is a request
    to the service; nothing is printed. *)
Theorem at_most_one_request :
  forall (W : Type) (env : Env W) (w : W) (c : option S3Client)
         (ctx : Context) (bucket key prefix : string) (data : bytes)
         (opts : option UploadOptions),
    let within (n : nat) (tr : list Event) :=
      length tr <= n /\ length (requests tr) = length tr in
    within 1 (trace_after env (ListFiles ctx bucket prefix) c w) /\
    within 1 (trace_after env (UploadFile ctx bucket key data opts) c w) /\
    within 2 (trace_after env (DownloadFile ctx bucket key) c w) /\
    within 1 (trace_after env (DeleteFile ctx bucket key) c w) /\
    within 1 (trace_after env (GetFileInfo ctx bucket key) c w).
Proof.
  intros W env w c ctx bucket key prefix data opts within.
  subst within. unfold trace_after. unfold_operations.
  repeat split; explore; auto.
Qed.

(** X8. Every SDK call of an operation is given the caller's context and
    names the caller's bucket and, except for a listing, the caller's key. *)
Theorem calls_carry_the_arguments :
  forall (W : Type) (env : Env W) (w : W) (c : option S3Client)
         (ctx : Context) (bucket key prefix : string) (data : bytes)
         (opts : option UploadOptions),
    let addressed (k : option string) (tr : list Event) :=
      Forall (fun call => call_ctx call = Some ctx /\
                          call_bucket call = Some bucket /\
                          call_key call = k) (calls tr) in
    addressed None (trace_after env (ListFiles ctx bucket prefix) c w) /\
    addressed (Some key)
      (trace_after env (UploadFile ctx bucket key data opts) c w) /\
    addressed (Some key) (trace_after env (DownloadFile ctx bucket key) c w) /\
    addressed (Some key) (trace_after env (DeleteFile ctx bucket key) c w) /\
    addressed (Some key) (trace_after env (GetFileInfo ctx bucket key) c w).
Proof.
  intros W env w c ctx bucket key prefix data opts addressed.
  subst addressed. unfold trace_after. unfold_operations.
  repeat split; explore; repeat constructor.
  all: try (rewrite ListFiles_input_eq; reflexivity).
  all: unfold UploadFile_input; destruct opts; reflexivity.
Qed.

(** X9. The errors an operation can return.  [ListFiles]:
    [ErrInvalidBucket] or a wrapped SDK error.  [UploadFile] and
    [DeleteFile]: also [ErrInvalidKey].  [DownloadFile] and [GetFileInfo]:
    also [ErrFileNotFound].  A sentinel is always returned bare, no
    operation returns [ErrInvalidConfig], and [DeleteFile] never returns
    [ErrFileNotFound], whatever the SDK reports. *)
Theorem errors_of_the_operations :
  forall (W : Type) (env : Env W) (w : W) (c : option S3Client)
         (ctx : Context) (bucket key prefix : string) (data : bytes)
         (opts : option UploadOptions),
    (forall files e,
       result_of env (ListFiles ctx bucket prefix) c w = Some (files, Some e) ->
       e = ErrInvalidBucket \/ wraps_sdk e) /\
    (forall location e,
       result_of env (UploadFile ctx bucket key data opts) c w
         = Some (location, Some e) ->
       e = ErrInvalidBucket \/ e = ErrInvalidKey \/ wraps_sdk e) /\
    (forall buf e,
       result_of env (DownloadFile ctx bucket key) c w = Some (buf, Some e) ->
       e = ErrInvalidBucket \/ e = ErrInvalidKey \/ e = ErrFileNotFound \/
       wraps_sdk e) /\
    (forall e,
       result_of env (DeleteFile ctx bucket key) c w = Some (Some e) ->
       e = ErrInvalidBucket \/ e = ErrInvalidKey \/ wraps_sdk e) /\
    (forall info e,
       result_of env (GetFileInfo ctx bucket key) c w = Some (info, Some e) ->
       e = ErrInvalidBucket \/ e = ErrInvalidKey \/ e = ErrFileNotFound \/
       wraps_sdk e).
Proof.
  intros W env w c ctx bucket key prefix data opts.
  unfold result_of, wraps_sdk. unfold_operations.
  repeat split; intros; revert H; explore; intros; simplify_eq; eauto 10.
Qed.

Lemma errors_of_the_operations_witness :
  Errorf "AWS error: %w" (Sdk Fake.access_denied) = ErrInvalidBucket \/
  Errorf "AWS error: %w" (Sdk Fake.access_denied) = ErrInvalidKey \/
  wraps_sdk (Errorf "AWS error: %w" (Sdk Fake.access_denied)).
Proof.
  destruct (errors_of_the_operations unit Fake.denied tt (Some Fake.client)
              Background "test-bucket" "a.txt" "" [] None)
    as (_ & _ & _ & Hdel & _).
  apply Hdel. reflexivity.
Defined.

(** ** Failures of the metadata request and of the transfer *)

(** X10. In [DownloadFile] and [GetFileInfo] a failure of the metadata
    request that is neither "NotFound" nor [NoSuchBucket], an error without
    a code included, is returned wrapped around the SDK's error after that
    one request; [DownloadFile] does not go on to the transfer. *)
Theorem other_probe_failure_is_wrapped :
  forall (W : Type) (env : Env W) (w w1 : W) (c : S3Client) (svc : s3.S3)
         (ctx : Context) (bucket key : string) (err : sdk_error),
    bucket <> "" ->
    key <> "" ->
    s3Client c = Some svc ->
    awserr_Code err <> Some "NotFound" ->
    awserr_Code err <> Some s3.ErrCodeNoSuchBucket ->
    let probe :=
      HeadObjectWithContext svc ctx
        {| s3.head_Bucket := Some bucket; s3.head_Key := Some key |} in
    env probe w = (inl err, w1) ->
    (exists e,
       run env (DownloadFile ctx bucket key (Some c)) w =
         ([EvCall probe], w1, Returned (([], Some e), Some c)) /\
       Unwrap e = Some (Sdk err) /\ errors_Is e (Sdk err) = true) /\
    (exists e,
       run env (GetFileInfo ctx bucket key (Some c)) w =
         ([EvCall probe], w1, Returned ((None, Some e), Some c)) /\
       Unwrap e = Some (Sdk err) /\ errors_Is e (Sdk err) = true).
Proof.
  intros W env w w1 c svc ctx bucket key err Hb Hk Hc Hnf Hnb probe E.
  unfold DownloadFile, GetFileInfo.
  rewrite !decide_False by assumption.
  method_unfold. rewrite Hc. simpl. fold probe. rewrite E.
  destruct (awserr_Code err) as [code |]; simpl.
  - rewrite !(decide_False (P := code = "NotFound")) by congruence.
    rewrite !(decide_False (P := code = s3.ErrCodeNoSuchBucket)) by congruence.
    split; eexists; (split; [reflexivity |]); split; try reflexivity;
      apply errors_Is_Errorf, errors_Is_refl.
  - split; eexists; (split; [reflexivity |]); split; try reflexivity;
      apply errors_Is_Errorf, errors_Is_refl.
Qed.

Lemma other_probe_failure_is_wrapped_witness :
  exists e,
    run Fake.denied
      (GetFileInfo Background "test-bucket" "a.txt" (Some Fake.client)) tt
    = ([EvCall (HeadObjectWithContext (s3.New {| session.id := 1 |})
                  Background
                  {| s3.head_Bucket := Some "test-bucket";
                     s3.head_Key := Some "a.txt" |})],
       tt, Returned ((None, Some e), Some Fake.client)) /\
    Unwrap e = Some (Sdk Fake.access_denied) /\
    errors_Is e (Sdk Fake.access_denied) = true.
Proof.
  apply (other_probe_failure_is_wrapped unit Fake.denied tt tt Fake.client
           (s3.New {| session.id := 1 |}) Background "test-bucket" "a.txt"
           Fake.access_denied);
    try discriminate; reflexivity.
Defined.

(** X11. When the transfer of [DownloadFile] fails after a successful
    metadata request, the error is wrapped as a download failure whatever
    its code: "NotFound" and [NoSuchBucket] are not turned into the
    sentinels at this stage.  The bytes already written to the buffer are
    not returned. *)
Theorem transfer_failure_is_wrapped :
  forall (W : Type) (env : Env W) (w w1 w2 : W) (c : S3Client) (svc : s3.S3)
         (sess : session.Session) (ctx : Context) (bucket key : string)
         (out : s3.HeadObjectOutput) (written : bytes) (err : sdk_error),
    bucket <> "" ->
    key <> "" ->
    s3Client c = Some svc ->
    session c = Some sess ->
    let probe :=
      HeadObjectWithContext svc ctx
        {| s3.head_Bucket := Some bucket; s3.head_Key := Some key |} in
    let transfer :=
      DownloadWithContext (s3manager.NewDownloader sess) ctx
        {| s3.get_Bucket := Some bucket; s3.get_Key := Some key |} in
    env probe w = (inr out, w1) ->
    env transfer w1 = ((written, Some err), w2) ->
    exists e,
      run env (DownloadFile ctx bucket key (Some c)) w =
        ([EvCall probe; EvCall transfer], w2,
         Returned (([], Some e), Some c)) /\
      Unwrap e = Some (Sdk err) /\
      errors_Is e (Sdk err) = true /\
      e <> ErrFileNotFound /\
      e <> ErrInvalidBucket.
Proof.
  intros W env w w1 w2 c svc sess ctx bucket key out written err
    Hb Hk Hc Hs probe transfer E1 E2.
  exists (Errorf "failed to download file: %w" (Sdk err)).
  split.
  - apply (DownloadFile_probe_ok env w c svc ctx bucket key Hb Hk Hc sess out
             w1 w2 (written, Some err) Hs E1 E2).
  - split; [reflexivity |]. split; [| split; discriminate].
    apply errors_Is_Errorf, errors_Is_refl.
Qed.

Lemma transfer_failure_is_wrapped_witness :
  exists e,
    run Faulty.env
      (DownloadFile Background "test-bucket" "hello.txt" (Some Fake.client)) tt
    = ([EvCall (HeadObjectWithContext (s3.New {| session.id := 1 |})
                  Background
                  {| s3.head_Bucket := Some "test-bucket";
                     s3.head_Key := Some "hello.txt" |});
        EvCall (DownloadWithContext
                  (s3manager.NewDownloader {| session.id := 1 |}) Background
                  {| s3.get_Bucket := Some "test-bucket";
                     s3.get_Key := Some "hello.txt" |})],
       tt, Returned (([], Some e), Some Fake.client)) /\
    Unwrap e = Some (Sdk Faulty.cut_off) /\
    errors_Is e (Sdk Faulty.cut_off) = true /\
    e <> ErrFileNotFound /\
    e <> ErrInvalidBucket.
Proof.
  apply (transfer_failure_is_wrapped unit Faulty.env tt tt tt Fake.client
           (s3.New {| session.id := 1 |}) {| session.id := 1 |} Background
           "test-bucket" "hello.txt"
           {| s3.ContentLength := Some 13%Z; s3.head_LastModified := None;
              s3.head_ETag := None; s3.head_StorageClass := None |}
           Faulty.partial Faulty.cut_off);
    try discriminate; reflexivity.
Defined.

(** ** The upload request *)

Lemma String_if_set_nonempty (s : string) : unset_or_nonempty (String_if_set s).
Proof.
  unfold unset_or_nonempty, String_if_set.
  destruct (decide (s = "")); congruence.
Qed.

Lemma String_if_set_Some (s : string) : s <> "" -> String_if_set s = Some s.
Proof. intros H. unfold String_if_set. rewrite decide_False; auto. Qed.

(** X12. With arguments that are not empty, [UploadFile] on a handle with
    an uploader sends one upload request.  It names the bucket and the key
    and carries the data as its body.  No optional header is ever sent as
    an empty string; options that are nil or all zero leave every optional
    field unset; an option that is set is sent as given, and a metadata map
    is sent with the same keys and values. *)
Theorem UploadFile_request :
  forall (W : Type) (env : Env W) (w : W) (c : S3Client)
         (u : s3manager.Uploader) (ctx : Context) (bucket key : string)
         (data : bytes) (opts : option UploadOptions),
    bucket <> "" ->
    key <> "" ->
    uploader c = Some u ->
    exists input : s3manager.UploadInput,
      trace_after env (UploadFile ctx bucket key data opts) (Some c) w
        = [EvCall (UploadWithContext u ctx input)] /\
      s3manager.Bucket input = Some bucket /\
      s3manager.Key input = Some key /\
      s3manager.Body input = data /\
      (unset_or_nonempty (s3manager.ContentType input) /\
       unset_or_nonempty (s3manager.ContentDisposition input) /\
       unset_or_nonempty (s3manager.CacheControl input) /\
       unset_or_nonempty (s3manager.StorageClass input) /\
       unset_or_nonempty (s3manager.ACL input)) /\
      (opts = None \/ opts = Some UploadOptions_zero ->
       s3manager.ContentType input = None /\
       s3manager.ContentDisposition input = None /\
       s3manager.CacheControl input = None /\
       s3manager.Metadata input = None /\
       s3manager.StorageClass input = None /\
       s3manager.ACL input = None) /\
      (forall o,
         opts = Some o ->
         (opt_ContentType o <> "" ->
          s3manager.ContentType input = Some (opt_ContentType o)) /\
         (opt_ContentDisposition o <> "" ->
          s3manager.ContentDisposition input
            = Some (opt_ContentDisposition o)) /\
         (opt_CacheControl o <> "" ->
          s3manager.CacheControl input = Some (opt_CacheControl o)) /\
         (opt_StorageClass o <> "" ->
          s3manager.StorageClass input = Some (opt_StorageClass o)) /\
         (opt_ACL o <> "" -> s3manager.ACL input = Some (opt_ACL o)) /\
         (forall m,
            opt_Metadata o = Some m ->
            exists sent,
              s3manager.Metadata input = Some sent /\
              forall k, sent !! k = Some <$> (m !! k))).
Proof.
  intros W env w c u ctx bucket key data opts Hb Hk Hu.
  exists (UploadFile_input bucket key data opts).
  split.
  { unfold trace_after.
    destruct (env (UploadWithContext u ctx
                     (UploadFile_input bucket key data opts)) w)
      as [[err | result] w1] eqn:E.
    - destruct (UploadFile_failure env w w1 c u ctx bucket key data opts err
                  Hb Hk Hu E) as (e & -> & _).
      reflexivity.
    - rewrite (UploadFile_success env w w1 c u ctx bucket key data opts result
                 Hb Hk Hu E).
      reflexivity. }
  unfold UploadFile_input.
  destruct opts as [o |]; simpl.
  - split; [reflexivity |]. split; [reflexivity |]. split; [reflexivity |].
    split; [repeat split; apply String_if_set_nonempty |].
    split.
    + intros [H | H]; [discriminate |]. inversion H; subst.
      repeat split; reflexivity.
    + intros o' H. inversion H; subst o'.
      repeat (split; [apply String_if_set_Some |]).
      intros m Hm. rewrite Hm. simpl. eexists. split; [reflexivity |].
      intros k. unfold aws.StringMap. apply lookup_fmap.
  - split; [reflexivity |]. split; [reflexivity |]. split; [reflexivity |].
    split; [repeat split; discriminate |].
    split; [intros _; repeat split; reflexivity |].
    intros o H. discriminate.
Qed.

Lemma UploadFile_request_witness :
  exists input : s3manager.UploadInput,
    trace_after Fake.env
      (UploadFile Background "test-bucket" "test-with-opts.txt"
         (list_byte_of_string "Hello, World!")
         (Some {| opt_ContentType := "text/plain";
                  opt_ContentDisposition := ""; opt_CacheControl := "";
                  opt_Metadata := Some {[ "test" := "value" ]};
                  opt_StorageClass := ""; opt_ACL := "" |}))
      (Some Fake.client) Fake.world
    = [EvCall (UploadWithContext (s3manager.NewUploader {| session.id := 1 |})
                 Background input)] /\
    s3manager.ContentType input = Some "text/plain" /\
    unset_or_nonempty (s3manager.ACL input).
Proof.
  destruct (UploadFile_request Fake.World Fake.env Fake.world Fake.client
              (s3manager.NewUploader {| session.id := 1 |}) Background
              "test-bucket" "test-with-opts.txt"
              (list_byte_of_string "Hello, World!")
              (Some {| opt_ContentType := "text/plain";
                       opt_ContentDisposition := ""; opt_CacheControl := "";
                       opt_Metadata := Some {[ "test" := "value" ]};
                       opt_StorageClass := ""; opt_ACL := "" |}))
    as (input & Htr & _ & _ & _ & (_ & _ & _ & _ & Hacl) & _ & Hset);
    [discriminate | discriminate | reflexivity |].
  exists input. split; [exact Htr |]. split; [| exact Hacl].
  destruct (Hset _ eq_refl) as (Hct & _). apply Hct. discriminate.
Defined.

(** ** Handles that cannot send requests *)

(** X13. On a nil receiver, and on a handle that [Close] has been called
    on, an operation whose arguments pass the local checks panics with a
    nil pointer dereference, before any request is sent. *)
Theorem request_needs_a_usable_handle :
  forall (W : Type) (env : Env W) (w : W) (c : option S3Client)
         (ctx : Context) (bucket key prefix : string) (data : bytes)
         (opts : option UploadOptions),
    bucket <> "" ->
    key <> "" ->
    c = None \/ (exists h, c = closed (Some h)) ->
    run env (ListFiles ctx bucket prefix c) w = ([], w, Panicked) /\
    run env (UploadFile ctx bucket key data opts c) w = ([], w, Panicked) /\
    run env (DownloadFile ctx bucket key c) w = ([], w, Panicked) /\
    run env (DeleteFile ctx bucket key c) w = ([], w, Panicked) /\
    run env (GetFileInfo ctx bucket key c) w = ([], w, Panicked).
Proof.
  intros W env w c ctx bucket key prefix data opts Hb Hk Hc.
  unfold ListFiles, UploadFile, DownloadFile, DeleteFile, GetFileInfo.
  rewrite !decide_False by assumption.
  destruct Hc as [-> | [h ->]]; repeat split; reflexivity.
Qed.

Lemma request_needs_a_usable_handle_witness :
  run Fake.env
    (DownloadFile Background "test-bucket" "a.txt" (closed (Some Fake.client)))
    Fake.world
  = ([], Fake.world, Panicked).
Proof.
  apply (request_needs_a_usable_handle Fake.World Fake.env Fake.world
           (closed (Some Fake.client)) Background "test-bucket" "a.txt" ""
           [] None); [discriminate | discriminate |].
  right. exists Fake.client. reflexivity.
Defined.

(** ** The test helpers *)

Lemma getEnvOrDefault_nonempty (environ : gmap string string)
    (key defaultValue : string) :
  defaultValue <> "" -> getEnvOrDefault environ key defaultValue <> "".
Proof.
  intros H. unfold getEnvOrDefault.
  destruct (decide (os_Getenv environ key = "")); assumption.
Qed.

(** X14. [getEnvOrDefault] returns the value of the variable when it is set
    to something not empty.  A variable that is not set and a variable set
    to the empty string both give the default, so the result is empty only
    if the default is. *)
Theorem getEnvOrDefault_override :
  forall (environ : gmap string string) (key defaultValue : string),
    (forall value,
       environ !! key = Some value -> value <> "" ->
       getEnvOrDefault environ key defaultValue = value) /\
    (environ !! key = None \/ environ !! key = Some "" ->
     getEnvOrDefault environ key defaultValue = defaultValue) /\
    (getEnvOrDefault environ key defaultValue = "" -> defaultValue = "").
Proof.
  intros environ key defaultValue. unfold getEnvOrDefault, os_Getenv.
  repeat split.
  - intros value H Hne. rewrite H. simpl. rewrite decide_False; auto.
  - intros [H | H]; rewrite H; reflexivity.
  - destruct (environ !! key) as [value |]; simpl; [| auto].
    destruct (decide (value = "")); auto. intros; contradiction.
Qed.

Lemma getEnvOrDefault_override_witness :
  getEnvOrDefault {[ "AWS_REGION" := "eu-central-1"; "TEST_BUCKET" := "" ]}
    "AWS_REGION" "us-west-2" = "eu-central-1" /\
  getEnvOrDefault {[ "AWS_REGION" := "eu-central-1"; "TEST_BUCKET" := "" ]}
    "TEST_BUCKET" "test-bucket" = "test-bucket".
Proof.
  split.
  - apply (getEnvOrDefault_override
             {[ "AWS_REGION" := "eu-central-1"; "TEST_BUCKET" := "" ]}
             "AWS_REGION" "us-west-2");
      [reflexivity | discriminate].
  - apply (getEnvOrDefault_override
             {[ "AWS_REGION" := "eu-central-1"; "TEST_BUCKET" := "" ]}
             "TEST_BUCKET" "test-bucket").
    right. reflexivity.
Defined.

(** X15. Whatever the process environment holds, the test configuration
    passes [Validate] and the test bucket is not empty: [NewS3Client] on it
    never fails with [ErrInvalidConfig], and the handle it returns has
    debug mode on. *)
Theorem testConfig_is_valid :
  forall (environ : gmap string string) (W : Type) (env : Env W) (w : W),
    Validate (testConfig environ) = None /\
    testBucket environ <> "" /\
    exists tr w1 client err,
      run env (NewS3Client (testConfig environ)) w
        = (tr, w1, Returned (client, err)) /\
      (forall e, err = Some e -> errors_Is e ErrInvalidConfig = false) /\
      (forall c, client = Some c -> debugMode c = true).
Proof.
  intros environ W env w.
  assert (HV : Validate (testConfig environ) = None).
  { apply Validate_None. simpl.
    repeat split; apply getEnvOrDefault_nonempty; discriminate. }
  split; [exact HV |].
  split; [apply getEnvOrDefault_nonempty; discriminate |].
  unfold NewS3Client. rewrite HV. simpl.
  destruct (env (NewSession (NewS3Client_awsCfg (testConfig environ))) w)
    as [[e | sess] w1].
  - do 4 eexists. split; [reflexivity |]. split.
    + intros e' H. inversion H; subst. reflexivity.
    + intros c H. discriminate.
  - do 4 eexists. split; [reflexivity |]. split.
    + intros e' H. discriminate.
    + intros c H. inversion H; subst. reflexivity.
Qed.

(** ** Download and metadata agree *)

(** X16. In one and the same state of the service, [DownloadFile] answers
    [ErrFileNotFound] exactly when [GetFileInfo] does, and likewise for
    [ErrInvalidBucket] and [ErrInvalidKey]: the sentinels of a download
    come from its argument checks and its metadata request only. *)
Theorem download_fails_as_metadata_does :
  forall (W : Type) (env : Env W) (w : W) (c : option S3Client)
         (ctx : Context) (bucket key : string) (e : error),
    e = ErrFileNotFound \/ e = ErrInvalidBucket \/ e = ErrInvalidKey ->
    (result_of env (GetFileInfo ctx bucket key) c w = Some (None, Some e) <->
     result_of env (DownloadFile ctx bucket key) c w = Some ([], Some e)).
Proof.
  intros W env w c ctx bucket key e He.
  unfold result_of. unfold_operations.
  destruct He as [-> | [-> | ->]]; explore; split; intros; simplify_eq;
    try reflexivity; try discriminate.
Qed.

Lemma download_fails_as_metadata_does_witness :
  result_of Fake.env (GetFileInfo Background "test-bucket" "nonexistent.txt")
    (Some Fake.client) Fake.world
  = Some (None, Some ErrFileNotFound) <->
  result_of Fake.env (DownloadFile Background "test-bucket" "nonexistent.txt")
    (Some Fake.client) Fake.world
  = Some ([], Some ErrFileNotFound).
Proof.
  apply (download_fails_as_metadata_does Fake.World Fake.env Fake.world
           (Some Fake.client) Background "test-bucket" "nonexistent.txt"
           ErrFileNotFound).
  left. reflexivity.
Defined.

(** ** The operations against the in-memory service *)

Lemma Fake_find_put_bucket (bucket : string) (objs objs' : list Fake.Stored)
    (w : Fake.World) :
  Fake.find_bucket (Some bucket) w = Some objs ->
  Fake.find_bucket (Some bucket) (Fake.put_bucket bucket objs' w) = Some objs'.
Proof.
  unfold Fake.find_bucket, Fake.put_bucket.
  induction w as [| [n os] w IH]; simpl; [discriminate |].
  destruct (decide (n = bucket)) as [-> | Hne]; simpl.
  - rewrite bool_decide_eq_true_2 by reflexivity. reflexivity.
  - rewrite bool_decide_eq_false_2 by congruence. simpl. exact IH.
Qed.

Lemma Fake_find_object_removed (key : string) (objs : list Fake.Stored) :
  Fake.find_object (Some key)
    (List.filter (fun o => negb (bool_decide (Some (Fake.name o) = Some key)))
       objs) = None.
Proof.
  unfold Fake.find_object.
  induction objs as [| a objs IH]; simpl; [reflexivity |].
  destruct (bool_decide (Some (Fake.name a) = Some key)) eqn:E; simpl.
  - exact IH.
  - rewrite E. exact IH.
Qed.

Lemma Fake_find_object_added (key : string) (objs : list Fake.Stored)
    (o : Fake.Stored) :
  Fake.name o = key ->
  Fake.find_object (Some key)
    (List.filter (fun o => negb (bool_decide (Fake.name o = key))) objs ++ [o])
  = Some o.
Proof.
  intros Ho. unfold Fake.find_object.
  induction objs as [| a objs IH]; simpl.
  - rewrite bool_decide_eq_true_2 by congruence. reflexivity.
  - destruct (decide (Fake.name a = key)) as [Ha | Ha].
    + rewrite (bool_decide_eq_true_2 _ Ha). simpl. exact IH.
    + rewrite (bool_decide_eq_false_2 _ Ha). simpl.
      rewrite bool_decide_eq_false_2 by congruence. exact IH.
Qed.

Lemma Fake_pages_of_concat (objs : list s3.Object) :
  concat (map s3.Contents (Fake.pages_of objs)) = objs.
Proof.
  enough (H : concat (map s3.Contents (Fake.pages_of objs)) = objs /\
              forall a, concat (map s3.Contents (Fake.pages_of (a :: objs)))
                        = a :: objs) by apply H.
  induction objs as [| b objs [IH1 IH2]].
  - split; [reflexivity | intros a; reflexivity].
  - split; [apply IH2 |].
    intros a. simpl. rewrite IH1. reflexivity.
Qed.

Lemma Fake_matches_all (objs : list Fake.Stored) :
  List.filter (Fake.matches None) objs = objs.
Proof.
  induction objs as [| a objs IH]; simpl; [reflexivity |].
  rewrite IH. reflexivity.
Qed.

(** X17. Against the in-memory service, on a usable handle: uploading
    [data] under a key of an existing bucket succeeds, and right after it
    [GetFileInfo] reports that key with the length of [data] as size,
    [DownloadFile] returns exactly [data], and [ListFiles] without prefix
    lists the key. *)
Theorem upload_then_read_back :
  forall (w : Fake.World) (c : S3Client) (svc : s3.S3)
         (sess : session.Session) (u : s3manager.Uploader) (ctx : Context)
         (bucket key : string) (data : bytes) (opts : option UploadOptions)
         (objs : list Fake.Stored),
    bucket <> "" ->
    key <> "" ->
    s3Client c = Some svc ->
    session c = Some sess ->
    uploader c = Some u ->
    Fake.find_bucket (Some bucket) w = Some objs ->
    exists (location : string) (w1 : Fake.World),
      run Fake.env (UploadFile ctx bucket key data opts (Some c)) w =
        ([EvCall (UploadWithContext u ctx
                    (UploadFile_input bucket key data opts))], w1,
         Returned ((location, None), Some c)) /\
      (exists f,
         result_of Fake.env (GetFileInfo ctx bucket key) (Some c) w1
           = Some (Some f, None) /\
         Key f = key /\
         Size f = Z.of_nat (length data)) /\
      result_of Fake.env (DownloadFile ctx bucket key) (Some c) w1
        = Some (data, None) /\
      (exists files,
         result_of Fake.env (ListFiles ctx bucket "") (Some c) w1
           = Some (files, None) /\
         In key (map Key files)).
Proof.
  intros w c svc sess u ctx bucket key data opts objs Hb Hk Hc Hs Hu Hfind.
  set (o := {| Fake.name := key; Fake.content := data; Fake.modified := 1%Z;
               Fake.tag := "etag";
               Fake.class :=
                 default "STANDARD"
                   (s3manager.StorageClass
                      (UploadFile_input bucket key data opts)) |}).
  set (stored :=
         List.filter (fun o => negb (bool_decide (Fake.name o = key))) objs
         ++ [o]).
  assert (Hin : s3manager.Bucket (UploadFile_input bucket key data opts)
                = Some bucket /\
                s3manager.Key (UploadFile_input bucket key data opts)
                = Some key /\
                s3manager.Body (UploadFile_input bucket key data opts) = data).
  { unfold UploadFile_input. destruct opts; repeat split. }
  destruct Hin as (HB & HK & HD).
  assert (Eup : Fake.env (UploadWithContext u ctx
                            (UploadFile_input bucket key data opts)) w
                = (inr {| s3manager.Location :=
                            "https://s3/" +:+ bucket +:+ "/" +:+ key |},
                   Fake.put_bucket bucket stored w)).
  { unfold Fake.env. rewrite HB, HK, HD, Hfind. reflexivity. }
  assert (Hfind1 : Fake.find_bucket (Some bucket)
                     (Fake.put_bucket bucket stored w) = Some stored)
    by (apply (Fake_find_put_bucket bucket objs); assumption).
  assert (Hobj : Fake.find_object (Some key) stored = Some o)
    by (apply Fake_find_object_added; reflexivity).
  do 2 eexists. split; [| split; [| split]].
  - apply (UploadFile_success Fake.env w _ c u ctx bucket key data opts _
             Hb Hk Hu Eup).
  - eexists. unfold result_of.
    rewrite (GetFileInfo_ok Fake.env _ c svc ctx bucket key Hb Hk Hc
               (Fake.head o) (Fake.put_bucket bucket stored w)).
    + split; [reflexivity |]. split; reflexivity.
    + unfold Fake.env. simpl. rewrite Hfind1, Hobj. reflexivity.
  - unfold result_of.
    rewrite (DownloadFile_probe_ok Fake.env _ c svc ctx bucket key Hb Hk Hc
               sess (Fake.head o) (Fake.put_bucket bucket stored w)
               (Fake.put_bucket bucket stored w) (data, None) Hs).
    + reflexivity.
    + unfold Fake.env. simpl. rewrite Hfind1, Hobj. reflexivity.
    + unfold Fake.env. simpl. rewrite Hfind1, Hobj. reflexivity.
  - eexists. unfold result_of.
    rewrite (run_ListFiles Fake.env _ (Fake.put_bucket bucket stored w) c svc
               ctx bucket "" (Fake.pages_of (map Fake.to_Object stored)) None
               Hb Hc).
    + split; [reflexivity |].
      rewrite Fake_pages_of_concat. rewrite !map_map.
      apply in_map_iff. exists o. split; [reflexivity |].
      apply in_or_app. right. left. reflexivity.
    + unfold Fake.env. simpl. rewrite Hfind1, Fake_matches_all. reflexivity.
Qed.

Lemma upload_then_read_back_witness :
  exists (location : string) (w1 : Fake.World),
    run Fake.env
      (UploadFile Background "test-bucket" "test-file.txt"
         (list_byte_of_string "Hello, World!") None (Some Fake.client))
      Fake.world
    = ([EvCall (UploadWithContext
                  (s3manager.NewUploader {| session.id := 1 |}) Background
                  (UploadFile_input "test-bucket" "test-file.txt"
                     (list_byte_of_string "Hello, World!") None))], w1,
       Returned ((location, None), Some Fake.client)) /\
    (exists f,
       result_of Fake.env (GetFileInfo Background "test-bucket" "test-file.txt")
         (Some Fake.client) w1 = Some (Some f, None) /\
       Key f = "test-file.txt" /\
       Size f = 13%Z) /\
    result_of Fake.env (DownloadFile Background "test-bucket" "test-file.txt")
      (Some Fake.client) w1
    = Some (list_byte_of_string "Hello, World!", None) /\
    (exists files,
       result_of Fake.env (ListFiles Background "test-bucket" "")
         (Some Fake.client) w1 = Some (files, None) /\
       In "test-file.txt" (map Key files)).
Proof.
  apply (upload_then_read_back Fake.world Fake.client
           (s3.New {| session.id := 1 |}) {| session.id := 1 |}
           (s3manager.NewUploader {| session.id := 1 |}) Background
           "test-bucket" "test-file.txt"
           (list_byte_of_string "Hello, World!") None
           [ Fake.stored "a.txt" "alpha"; Fake.stored "test/b.txt" "beta";
             Fake.stored "test/c.txt" "gamma"; Fake.stored "z.txt" "omega" ]);
    try discriminate; reflexivity.
Defined.

(** X18. Against the in-memory service, on a usable handle: deleting a key
    of an existing bucket succeeds whether or not the key was there, and
    right after it [GetFileInfo] and [DownloadFile] on that key answer
    [ErrFileNotFound]; the download sends only its metadata request. *)
Theorem delete_then_not_found :
  forall (w : Fake.World) (c : S3Client) (svc : s3.S3)
         (sess : session.Session) (ctx : Context) (bucket key : string)
         (objs : list Fake.Stored),
    bucket <> "" ->
    key <> "" ->
    s3Client c = Some svc ->
    session c = Some sess ->
    Fake.find_bucket (Some bucket) w = Some objs ->
    exists w1 : Fake.World,
      run Fake.env (DeleteFile ctx bucket key (Some c)) w =
        ([EvCall (DeleteObjectWithContext svc ctx
                    {| s3.del_Bucket := Some bucket;
                       s3.del_Key := Some key |})], w1,
         Returned (None, Some c)) /\
      result_of Fake.env (GetFileInfo ctx bucket key) (Some c) w1
        = Some (None, Some ErrFileNotFound) /\
      run Fake.env (DownloadFile ctx bucket key (Some c)) w1 =
        ([EvCall (HeadObjectWithContext svc ctx
                    {| s3.head_Bucket := Some bucket;
                       s3.head_Key := Some key |})], w1,
         Returned (([], Some ErrFileNotFound), Some c)).
Proof.
  intros w c svc sess ctx bucket key objs Hb Hk Hc Hs Hfind.
  set (left_over :=
         List.filter
           (fun o => negb (bool_decide (Some (Fake.name o) = Some key))) objs).
  assert (Edel : Fake.env (DeleteObjectWithContext svc ctx
                             {| s3.del_Bucket := Some bucket;
                                s3.del_Key := Some key |}) w
                 = (inr {| s3.DeleteMarker := None |},
                    Fake.put_bucket bucket left_over w)).
  { unfold Fake.env. simpl. rewrite Hfind. reflexivity. }
  assert (Hfind1 : Fake.find_bucket (Some bucket)
                     (Fake.put_bucket bucket left_over w) = Some left_over)
    by (apply (Fake_find_put_bucket bucket objs); assumption).
  assert (Hobj : Fake.find_object (Some key) left_over = None)
    by apply Fake_find_object_removed.
  assert (Ehead : Fake.env (HeadObjectWithContext svc ctx
                              {| s3.head_Bucket := Some bucket;
                                 s3.head_Key := Some key |})
                    (Fake.put_bucket bucket left_over w)
                  = (inl Fake.not_found, Fake.put_bucket bucket left_over w)).
  { unfold Fake.env. simpl. rewrite Hfind1, Hobj. reflexivity. }
  eexists. split; [| split].
  - apply (DeleteFile_success Fake.env w _ c svc ctx bucket key _
             Hb Hk Hc Edel).
  - unfold result_of.
    destruct (GetFileInfo_error Fake.env _ c svc ctx bucket key Hb Hk Hc
                _ _ Ehead) as (e & Hrun & Hnf & _).
    rewrite Hrun, (Hnf eq_refl). reflexivity.
  - destruct (DownloadFile_probe_error Fake.env _ c svc ctx bucket key
                Hb Hk Hc _ _ Ehead) as (e & Hrun & Hnf & _).
    rewrite Hrun, (Hnf eq_refl). reflexivity.
Qed.

Lemma delete_then_not_found_witness :
  exists w1 : Fake.World,
    run Fake.env
      (DeleteFile Background "test-bucket" "a.txt" (Some Fake.client))
      Fake.world
    = ([EvCall (DeleteObjectWithContext (s3.New {| session.id := 1 |})
                  Background
                  {| s3.del_Bucket := Some "test-bucket";
                     s3.del_Key := Some "a.txt" |})], w1,
       Returned (None, Some Fake.client)) /\
    result_of Fake.env (GetFileInfo Background "test-bucket" "a.txt")
      (Some Fake.client) w1
    = Some (None, Some ErrFileNotFound) /\
    run Fake.env
      (DownloadFile Background "test-bucket" "a.txt" (Some Fake.client)) w1
    = ([EvCall (HeadObjectWithContext (s3.New {| session.id := 1 |})
                  Background
                  {| s3.head_Bucket := Some "test-bucket";
                     s3.head_Key := Some "a.txt" |})], w1,
       Returned (([], Some ErrFileNotFound), Some Fake.client)).
Proof.
  apply (delete_then_not_found Fake.world Fake.client
           (s3.New {| session.id := 1 |}) {| session.id := 1 |} Background
           "test-bucket" "a.txt"
           [ Fake.stored "a.txt" "alpha"; Fake.stored "test/b.txt" "beta";
             Fake.stored "test/c.txt" "gamma"; Fake.stored "z.txt" "omega" ]);
    try discriminate; reflexivity.
Defined.
